(** * MedPrompt triage agent: a shallow embedding of [triage_agent.py] and of
    the generation fallback of [app.py], with the properties of the
    specification stated and settled against it.

    Text is modelled as a list of bytes ([list ascii], the UTF-8 encoding of a
    Python [str]).  Substring tests and [split] are the same on bytes and on
    characters.  Case mapping, case-insensitive matching, the digit class
    and the whitespace class are given on the ASCII characters, where they
    need no Unicode table: [str.lower] maps [A]-[Z], and [str.strip] / [\s]
    see the ten ASCII characters for which [str.isspace] holds.  A property
    that depends on them is stated for the texts on which Python computes
    the same: [is_ascii] texts where case or the digit class is involved,
    [ascii_spaced] texts (no whitespace character outside ASCII) where only
    trimming is.  The bullet delimiter is the three-byte UTF-8 encoding of
    U+2022 followed by a space. *)

From Stdlib Require Import List Ascii String Bool Arith Lia Permutation.
From Stdlib Require Import DecimalString Btauto.
Import ListNotations.

(* ================================================================= *)
(** ** Exceptions *)

(** [Unmodelled] is no exception of Python: it is the answer of the model
    on a pattern outside the fragment of [re] it covers. *)
Inductive exn : Type :=
| KeyError
| IndexError
| ValueError
| ReError
| Unmodelled.

Inductive result (A : Type) : Type :=
| Ok (a : A)
| Raise (e : exn).

Arguments Ok {A} a.
Arguments Raise {A} e.

Definition bind {A B : Type} (m : result A) (k : A -> result B) : result B :=
  match m with
  | Ok a => k a
  | Raise e => Raise e
  end.

Notation "x <- m ;; k" := (bind m (fun x => k))
  (at level 61, m at next level, right associativity).

Fixpoint mapM {A B : Type} (f : A -> result B) (l : list A) : result (list B) :=
  match l with
  | [] => Ok []
  | a :: l' => b <- f a ;; bs <- mapM f l' ;; Ok (b :: bs)
  end.

(* ================================================================= *)
(** ** Python string primitives used by the agent *)

Module PyStr.

Definition str : Type := list ascii.

Definition py (s : string) : str := list_ascii_of_string s.
Arguments py s%_string.

Definition newline : ascii := "010"%char.

(** All characters are ASCII. *)
Definition is_ascii (s : str) : bool :=
  forallb (fun c => nat_of_ascii c <? 128) s.

(** [len(s)]: the number of characters, that is of bytes that are not
    UTF-8 continuation bytes. *)
Definition is_continuation (c : ascii) : bool :=
  (128 <=? nat_of_ascii c) && (nat_of_ascii c <=? 191).

Definition py_len (s : str) : nat :=
  List.length (filter (fun c => negb (is_continuation c)) s).

(** [str.lower], on the ASCII letters: of an [is_ascii] text it is Python's
    [str.lower]. *)
Definition is_upper (c : ascii) : bool :=
  (65 <=? nat_of_ascii c) && (nat_of_ascii c <=? 90).

Definition lower_char (c : ascii) : ascii :=
  if is_upper c then ascii_of_nat (nat_of_ascii c + 32) else c.

Definition lower (s : str) : str := map lower_char s.

(** [str.isspace] on one ASCII character: TAB, LF, VT, FF, CR, FS, GS, RS,
    US and the space.  The whitespace characters outside ASCII are listed
    in [unicode_spaces] below. *)
Definition isspace (c : ascii) : bool :=
  let n := nat_of_ascii c in
  ((9 <=? n) && (n <=? 13)) || ((28 <=? n) && (n <=? 32)).

(** The ASCII digits; [\d] matches more outside ASCII. *)
Definition isdigit (c : ascii) : bool :=
  (48 <=? nat_of_ascii c) && (nat_of_ascii c <=? 57).

Fixpoint lstrip (s : str) : str :=
  match s with
  | [] => []
  | c :: s' => if isspace c then lstrip s' else s
  end.

Definition rstrip (s : str) : str := rev (lstrip (rev s)).

Definition strip (s : str) : str := rstrip (lstrip s).

(** Truth value of a string: non-empty. *)
Definition truthy (s : str) : bool :=
  match s with
  | [] => false
  | _ :: _ => true
  end.

Fixpoint startswith (p s : str) : bool :=
  match p, s with
  | [], _ => true
  | _ :: _, [] => false
  | a :: p', b :: s' => Ascii.eqb a b && startswith p' s'
  end.

(** [a == b] on strings. *)
Fixpoint str_eqb (a b : str) : bool :=
  match a, b with
  | [], [] => true
  | x :: a', y :: b' => Ascii.eqb x y && str_eqb a' b'
  | _, _ => false
  end.

(** [sub in s]. *)
Fixpoint contains (sub s : str) : bool :=
  startswith sub s ||
  match s with
  | [] => false
  | _ :: s' => contains sub s'
  end.

(** [any(term in s for term in terms)]. *)
Definition any_in (terms : list str) (s : str) : bool :=
  existsb (fun term => contains term s) terms.

(** [s.split(sep)]: the pieces between the non-overlapping occurrences of
    [sep], found left to right.  [skip] counts the characters of an
    occurrence still to be passed over; [cur] is the piece being built. *)
Fixpoint split_go (sep s : str) (skip : nat) (cur : str) : list str :=
  match s with
  | [] => [cur]
  | c :: s' =>
      match skip with
      | S k => split_go sep s' k cur
      | O =>
          if startswith sep s
          then cur :: split_go sep s' (List.length sep - 1) []
          else split_go sep s' 0 (cur ++ [c])
      end
  end.

Definition split (sep s : str) : result (list str) :=
  match sep with
  | [] => Raise ValueError
  | _ :: _ => Ok (split_go sep s 0 [])
  end.

(** [sep.join(pieces)], used to state what [split] preserves. *)
Fixpoint join (sep : str) (pieces : list str) : str :=
  match pieces with
  | [] => []
  | [p] => p
  | p :: rest => p ++ sep ++ join sep rest
  end.

End PyStr.

(* ================================================================= *)
(** ** The fragment of Python's [re] the pattern tables use *)

Module Re.
Import PyStr.

Inductive citem : Type :=
| CChr (c : ascii)
| CSpace
| CDigit.

Inductive regex : Type :=
| Void
| Eps
| Chr (c : ascii)
| Dot
| Cls (items : list citem)
| Cat (r1 r2 : regex)
| Alt (r1 r2 : regex)
| Star (r : regex).

(** *** Parsing a pattern string *)

Definition is_meta (c : ascii) : bool :=
  existsb (Ascii.eqb c)
    ["."; "^"; "$"; "*"; "+"; "?"; "{"; "}"; "["; "]"; "\"; "|"; "("; ")"]%char.

Definition seq (r1 r2 : regex) : regex :=
  match r2 with
  | Eps => r1
  | _ => Cat r1 r2
  end.

(** The items of a character class, after the opening bracket. *)
Fixpoint parse_class (s : str) (acc : list citem) : option (regex * str) :=
  match s with
  | [] => None
  | "]"%char :: s' =>
      match acc with
      | [] => None
      | _ :: _ => Some (Cls (rev acc), s')
      end
  | "\"%char :: "s"%char :: s' => parse_class s' (CSpace :: acc)
  | "\"%char :: "d"%char :: s' => parse_class s' (CDigit :: acc)
  | "-"%char :: (("]"%char :: _) as s') => parse_class s' (CChr "-" :: acc)
  | c :: s' =>
      if is_meta c || Ascii.eqb c "-"%char then None
      else parse_class s' (CChr c :: acc)
  end.

(** One optional quantifier after an atom. *)
Definition parse_postfix (a : regex) (s : str) : regex * str :=
  match s with
  | "*"%char :: s' => (Star a, s')
  | "+"%char :: s' => (Cat a (Star a), s')
  | "?"%char :: s' => (Alt a Eps, s')
  | _ => (a, s)
  end.

Fixpoint parse_alt (fuel : nat) (s : str) : option (regex * str) :=
  match fuel with
  | O => None
  | S n =>
      match parse_seq n s with
      | Some (r, "|"%char :: s') =>
          match parse_alt n s' with
          | Some (r2, s'') => Some (Alt r r2, s'')
          | None => None
          end
      | other => other
      end
  end
with parse_seq (fuel : nat) (s : str) : option (regex * str) :=
  match fuel with
  | O => None
  | S n =>
      match s with
      | [] => Some (Eps, [])
      | "|"%char :: _ => Some (Eps, s)
      | ")"%char :: _ => Some (Eps, s)
      | _ =>
          match parse_atom n s with
          | Some (a, s1) =>
              let (a', s2) := parse_postfix a s1 in
              match parse_seq n s2 with
              | Some (r, s3) => Some (seq a' r, s3)
              | None => None
              end
          | None => None
          end
      end
  end
with parse_atom (fuel : nat) (s : str) : option (regex * str) :=
  match fuel with
  | O => None
  | S n =>
      match s with
      | [] => None
      | "("%char :: s' =>
          match parse_alt n s' with
          | Some (r, ")"%char :: s'') => Some (r, s'')
          | _ => None
          end
      | "["%char :: s' => parse_class s' []
      | "."%char :: s' => Some (Dot, s')
      | "\"%char :: "d"%char :: s' => Some (Cls [CDigit], s')
      | "\"%char :: "s"%char :: s' => Some (Cls [CSpace], s')
      | c :: s' => if is_meta c then None else Some (Chr c, s')
      end
  end.

(** The pattern parsed; [None] for a pattern outside the fragment, valid
    for Python or not. *)
Definition compile (pattern : str) : option regex :=
  match parse_alt (2 * List.length pattern + 2) pattern with
  | Some (r, []) => Some r
  | _ => None
  end.

(** *** Matching *)

(** Does pattern character [c] accept [x]?  [ic] is [re.IGNORECASE], here
    the folding of the ASCII letters: Python's on an [is_ascii] text (four
    characters outside ASCII fold to [i], [s] and [k]). *)
Definition chr_match (ic : bool) (c x : ascii) : bool :=
  if ic then Ascii.eqb (lower_char c) (lower_char x) else Ascii.eqb c x.

Definition citem_match (ic : bool) (i : citem) (x : ascii) : bool :=
  match i with
  | CChr c => chr_match ic c x
  | CSpace => isspace x
  | CDigit => isdigit x
  end.

(** The dot matches everything but a newline (no [re.DOTALL]). *)
Definition dot_match (x : ascii) : bool := negb (Ascii.eqb x newline).

Fixpoint nullable (r : regex) : bool :=
  match r with
  | Void => false
  | Eps => true
  | Chr _ => false
  | Dot => false
  | Cls _ => false
  | Cat r1 r2 => nullable r1 && nullable r2
  | Alt r1 r2 => nullable r1 || nullable r2
  | Star _ => true
  end.

Definition mkCat (r1 r2 : regex) : regex :=
  match r1 with
  | Void => Void
  | Eps => r2
  | _ => match r2 with Void => Void | _ => Cat r1 r2 end
  end.

Definition mkAlt (r1 r2 : regex) : regex :=
  match r1 with
  | Void => r2
  | _ => match r2 with Void => r1 | _ => Alt r1 r2 end
  end.

(** What remains of [r] to match after reading [x]. *)
Fixpoint deriv (ic : bool) (x : ascii) (r : regex) : regex :=
  match r with
  | Void => Void
  | Eps => Void
  | Chr c => if chr_match ic c x then Eps else Void
  | Dot => if dot_match x then Eps else Void
  | Cls items => if existsb (fun i => citem_match ic i x) items then Eps else Void
  | Cat r1 r2 =>
      mkAlt (mkCat (deriv ic x r1) r2)
            (if nullable r1 then deriv ic x r2 else Void)
  | Alt r1 r2 => mkAlt (deriv ic x r1) (deriv ic x r2)
  | Star r1 => mkCat (deriv ic x r1) (Star r1)
  end.

(** [r] matches some prefix of [s] (a match anchored at the start). *)
Fixpoint match_here (ic : bool) (r : regex) (s : str) : bool :=
  nullable r ||
  match s with
  | [] => false
  | x :: s' => match_here ic (deriv ic x r) s'
  end.

(** [re.search] as a truth value: a match starting at some position. *)
Fixpoint search_from (ic : bool) (r : regex) (s : str) : bool :=
  match_here ic r s ||
  match s with
  | [] => false
  | _ :: s' => search_from ic r s'
  end.

(** Patterns that [re.compile] rejects for certain: short, made of
    letters, digits, spaces, bars and parentheses only, and with
    parentheses that do not balance. *)
Definition is_plain (c : ascii) : bool :=
  let n := nat_of_ascii c in
  ((97 <=? n) && (n <=? 122)) || ((65 <=? n) && (n <=? 90))
  || ((48 <=? n) && (n <=? 57))
  || existsb (Ascii.eqb c) [" "; "|"; "("; ")"]%char.

Fixpoint balanced (depth : nat) (s : str) : bool :=
  match s with
  | [] => depth =? 0
  | "("%char :: s' => balanced (S depth) s'
  | ")"%char :: s' =>
      match depth with
      | O => false
      | S d => balanced d s'
      end
  | _ :: s' => balanced depth s'
  end.

Definition malformed (pattern : str) : bool :=
  (List.length pattern <=? 64)
  && forallb is_plain pattern
  && negb (balanced 0 pattern).

(** [re.search(pattern, text, flags)] as a truth value.  A pattern outside
    the fragment raises [re.error] when it is [malformed]; otherwise the
    model gives no answer. *)
Definition search (pattern text : str) (ignorecase : bool) : result bool :=
  match compile pattern with
  | Some r => Ok (search_from ignorecase r text)
  | None => if malformed pattern then Raise ReError else Raise Unmodelled
  end.

(** The language of a pattern, as a relation. *)
Inductive matches (ic : bool) : regex -> str -> Prop :=
| MEps : matches ic Eps []
| MChr c x : chr_match ic c x = true -> matches ic (Chr c) [x]
| MDot x : dot_match x = true -> matches ic Dot [x]
| MCls items x :
    existsb (fun i => citem_match ic i x) items = true ->
    matches ic (Cls items) [x]
| MCat r1 r2 s1 s2 :
    matches ic r1 s1 -> matches ic r2 s2 -> matches ic (Cat r1 r2) (s1 ++ s2)
| MAltL r1 r2 s : matches ic r1 s -> matches ic (Alt r1 r2) s
| MAltR r1 r2 s : matches ic r2 s -> matches ic (Alt r1 r2) s
| MStarNil r : matches ic (Star r) []
| MStarCons r s1 s2 :
    matches ic r s1 -> matches ic (Star r) s2 -> matches ic (Star r) (s1 ++ s2).

End Re.

(* ================================================================= *)
(** ** triage_agent.py *)

Module triage_agent.
Import PyStr Re.

Inductive TriageSeverity : Type :=
| EMERGENCY
| URGENT
| SEMI_URGENT
| ROUTINE
| SELF_CARE.

Inductive CarePathway : Type :=
| EMERGENCY_ROOM
| URGENT_CARE
| PRIMARY_CARE
| TELEHEALTH
| SELF_MANAGEMENT.

(** The [.value] of the two enumerations. *)
Definition severity_value (s : TriageSeverity) : str :=
  match s with
  | EMERGENCY => py "emergency"
  | URGENT => py "urgent"
  | SEMI_URGENT => py "semi-urgent"
  | ROUTINE => py "routine"
  | SELF_CARE => py "self-care"
  end.

Definition pathway_value (p : CarePathway) : str :=
  match p with
  | EMERGENCY_ROOM => py "emergency_room"
  | URGENT_CARE => py "urgent_care"
  | PRIMARY_CARE => py "primary_care"
  | TELEHEALTH => py "telehealth"
  | SELF_MANAGEMENT => py "self_management"
  end.

Definition severity_eqb (a b : TriageSeverity) : bool :=
  match a, b with
  | EMERGENCY, EMERGENCY | URGENT, URGENT | SEMI_URGENT, SEMI_URGENT
  | ROUTINE, ROUTINE | SELF_CARE, SELF_CARE => true
  | _, _ => false
  end.

Definition pathway_eqb (a b : CarePathway) : bool :=
  match a, b with
  | EMERGENCY_ROOM, EMERGENCY_ROOM | URGENT_CARE, URGENT_CARE
  | PRIMARY_CARE, PRIMARY_CARE | TELEHEALTH, TELEHEALTH
  | SELF_MANAGEMENT, SELF_MANAGEMENT => true
  | _, _ => false
  end.

(** A dict literal, in source order; [d[k]] raises [KeyError] on a key that
    is absent. *)
Definition dict (K V : Type) : Type := list (K * V).

Fixpoint dict_get {K V : Type} (eqb : K -> K -> bool) (d : dict K V) (k : K)
  : result V :=
  match d with
  | [] => Raise KeyError
  | (k', v) :: d' => if eqb k' k then Ok v else dict_get eqb d' k
  end.

(** The attributes [__init__] sets on [self]. *)
Record TriageAgent : Type := {
  emergency_indicators : list str;
  urgent_indicators : list str;
  semi_urgent_indicators : list str;
  routine_indicators : list str;
  self_care_indicators : list str
}.

Definition __init__ : TriageAgent := {|
  emergency_indicators := map py [
    "difficulty breathing"; "shortness of breath"; "chest pain";
    "severe (pain|bleeding)"; "unconscious"; "unresponsive";
    "stroke"; "heart attack"; "seizure"; "unable to (speak|move)";
    "sudden (numbness|weakness)"; "severe head(ache)? with (fever|stiff neck)";
    "suicidal"; "overdose"; "poisoning";
    "(baby|infant|child).*(not breathing|turning blue|choking)";
    "(baby|infant|child).*(unresponsive|unconscious|won't wake up)";
    "(baby|infant|child).*(seizure|convulsion)";
    "(baby|infant|child).*(severe dehydration|not urinating)";
    "(baby|infant|child).*(rash.*(doesn't blanch|doesn't fade))";
    "(baby|infant|child).*(lethargic|extremely weak)";
    "(baby|infant|child).*(high fever.*(under|less than) (3|three) months)"
  ]%string;
  urgent_indicators := map py [
    "high fever"; "persistent vomiting"; "dehydration";
    "infection"; "moderate (pain|bleeding)"; "broken bone";
    "deep cut"; "burn"; "allergic reaction"; "pregnancy complication";
    "severe (rash|swelling)"; "eye injury"; "mental health crisis";
    "(baby|infant|child).*(fever.*(102|103|104|105))";
    "(baby|infant|child).*(not feeding|refusing to eat|drink)";
    "(baby|infant|child).*(unusual (crying|screaming))";
    "(baby|infant|child).*(bulging fontanelle)";
    "(baby|infant|child).*(persistent vomiting|diarrhea)"
  ]%string;
  semi_urgent_indicators := map py [
    "ear(ache|infection)"; "sinus (pain|infection)"; "minor infection";
    "mild to moderate pain"; "(sprain|strain)"; "minor injury";
    "persistent symptoms"; "worsening chronic condition";
    "fever.*(101|102)"; "swollen.*(ankle|joint|knee|wrist)";
    "diarrhea.*(3|three|several) days"; "persistent diarrhea";
    "fall"; "fell"; "falling"; "twisted"; "twist";
    "asthma.*(significantly worse|severe|attack)";
    "blood sugar.*(very high|dangerously high|extremely elevated)";
    "(diabetes|diabetic).*(uncontrolled|out of control)";
    "back pain.*(severe|debilitating|can't move)";
    "(baby|infant|child).*(ear infection|ear pain)";
    "(baby|infant|child).*(fever.*(100|101))";
    "(baby|infant|child).*(mild rash)";
    "(baby|infant|child).*(cough|cold).*(several days)"
  ]%string;
  routine_indicators := map py [
    "chronic condition"; "follow-up"; "medication refill";
    "mild symptoms"; "general check-up"; "non-urgent concern";
    "mild (rash|pain)"; "routine screening";
    "asthma.*(worse|worsening)"; "persistent.*(pain|ache)";
    "blood sugar.*(higher|elevated|abnormal)";
    "(diabetes|diabetic).*(control|management)";
    "back pain.*(chronic|persistent|ongoing)";
    "(month|months|week|weeks|day|days)";
    "(baby|infant|child).*(mild fever)";
    "(baby|infant|child).*(minor cough|runny nose)";
    "(baby|infant|child).*(diaper rash)";
    "(baby|infant|child).*(feeding question|growth concern)"
  ]%string;
  self_care_indicators := map py [
    "common cold"; "minor headache"; "mild fever"; "sore throat";
    "minor cut"; "scrape"; "bruise"; "mild allergies";
    "mild digestive issues"; "general fatigue"; "tired"; "fatigue";
    "runny nose"; "sneezing"; "cough"; "mild cough"; "occasional cough";
    "slight headache"; "mild pain"; "minor pain"; "slight pain";
    "itchy"; "itching"; "dry skin"; "rash"; "minor rash";
    "upset stomach"; "indigestion"; "gas"; "bloating";
    "(baby|infant|child).*(slight fever|low-grade fever)";
    "(baby|infant|child).*(minor cough|sniffle)";
    "(baby|infant|child).*(small scrape|minor bruise)";
    "(baby|infant|child).*(teething)";
    "(baby|infant|child).*(mild diaper rash)";
    "(baby|infant|child).*(occasional fussiness)"
  ]%string
|}.

(** The [for] loop of [_check_pattern_match], over the lowered text. *)
Fixpoint any_pattern (text : str) (patterns : list str) : result bool :=
  match patterns with
  | [] => Ok false
  | pattern :: rest =>
      m <- Re.search pattern text true ;;
      if m then Ok true else any_pattern text rest
  end.

Definition _check_pattern_match (self : TriageAgent) (text : str)
  (patterns : list str) : result bool :=
  let text := lower text in
  any_pattern text patterns.

(** *** [classify_severity] *)

(** Lines 150-162: the symptom list parsed out of the report. *)
Definition parse_symptom_list (symptoms : str) : result (list str) :=
  symptom_list <- split [newline] symptoms ;;
  symptom_list <-
    (if List.length symptom_list =? 1 then
       if contains (py " - ") symptoms then split (py " - ") symptoms
       else if contains (py "• ") symptoms then split (py "• ") symptoms
       else if contains (py ", ") symptoms then split (py ", ") symptoms
       else Ok symptom_list
     else Ok symptom_list) ;;
  Ok (map strip (filter (fun s => truthy (strip s)) symptom_list)).

(** The loop body prints a distinct message on each path that appends a
    severity; [branch] names the path taken. *)
Inductive branch : Type :=
| SeverePainBreathing
| SevereAsthma
| WorseningAsthma
| StableAsthma
| DangerousBloodSugar
| ElevatedBloodSugar
| BloodSugarConcern
| SevereBackPain
| ChronicBackPain
| MildBackPain
| EmergencyPattern
| UrgentPattern
| SemiUrgentPattern
| RoutinePattern
| WorseningChronic
| NoPatternMatched.

(** Lines 169-248: one iteration of the loop, giving the severity appended
    and the path that appended it. *)
Definition classify_symptom (self : TriageAgent) (symptom : str)
  : result (TriageSeverity * branch) :=
  let is_chronic :=
    any_in (map py ["chronic"; "persistent"; "ongoing"; "months"; "weeks"]%string)
           (lower symptom) in
  let is_worsening :=
    any_in (map py ["worse"; "worsening"; "increased"; "higher"; "elevated"]%string)
           (lower symptom) in
  if any_in (map py ["severe"; "extreme"; "intense"; "unbearable"; "worst"]%string)
            (lower symptom)
     && any_in (map py ["pain"; "headache"; "chest"; "breathing"]%string)
               (lower symptom)
  then Ok (EMERGENCY, SeverePainBreathing)
  else if contains (py "asthma") (lower symptom) then
    if any_in (map py ["attack"; "can't breathe"; "severe"; "emergency"]%string)
              (lower symptom)
    then Ok (EMERGENCY, SevereAsthma)
    else if is_worsening then Ok (SEMI_URGENT, WorseningAsthma)
    else Ok (ROUTINE, StableAsthma)
  else if contains (py "blood sugar") (lower symptom)
          || contains (py "diabetes") (lower symptom) then
    if any_in (map py ["very high"; "extremely"; "dangerously"]%string)
              (lower symptom)
    then Ok (URGENT, DangerousBloodSugar)
    else if is_worsening then Ok (SEMI_URGENT, ElevatedBloodSugar)
    else Ok (ROUTINE, BloodSugarConcern)
  else if contains (py "back pain") (lower symptom) then
    if any_in (map py ["severe"; "can't move"; "debilitating"]%string)
              (lower symptom)
    then Ok (SEMI_URGENT, SevereBackPain)
    else if is_chronic then Ok (ROUTINE, ChronicBackPain)
    else Ok (SELF_CARE, MildBackPain)
  else
    m <- _check_pattern_match self symptom (emergency_indicators self) ;;
    if m then Ok (EMERGENCY, EmergencyPattern) else
    m <- _check_pattern_match self symptom (urgent_indicators self) ;;
    if m then Ok (URGENT, UrgentPattern) else
    m <- _check_pattern_match self symptom (semi_urgent_indicators self) ;;
    if m then Ok (SEMI_URGENT, SemiUrgentPattern) else
    m <- _check_pattern_match self symptom (routine_indicators self) ;;
    if m then Ok (ROUTINE, RoutinePattern) else
    if is_chronic && is_worsening then Ok (ROUTINE, WorseningChronic)
    else Ok (SELF_CARE, NoPatternMatched).

(** Lines 166-248: the loop, appending one severity per symptom. *)
Fixpoint classify_loop (self : TriageAgent) (symptom_list : list str)
  (severity_levels : list TriageSeverity) : result (list TriageSeverity) :=
  match symptom_list with
  | [] => Ok severity_levels
  | symptom :: rest =>
      r <- classify_symptom self symptom ;;
      classify_loop self rest (severity_levels ++ [fst r])
  end.

Definition severity_order : dict TriageSeverity nat :=
  [(EMERGENCY, 0); (URGENT, 1); (SEMI_URGENT, 2); (ROUTINE, 3); (SELF_CARE, 4)].

(** [list.sort(key=...)]: the keys are computed first, then the list is
    sorted on them, stably. *)
Fixpoint insert_keyed {A : Type} (x : nat * A) (l : list (nat * A))
  : list (nat * A) :=
  match l with
  | [] => [x]
  | y :: l' => if fst x <=? fst y then x :: l else y :: insert_keyed x l'
  end.

Definition sort_by_key {A : Type} (key : A -> result nat) (l : list A)
  : result (list A) :=
  keys <- mapM key l ;;
  Ok (map snd (fold_right insert_keyed [] (combine keys l))).

(** Lines 250-267: the most severe of the severities collected. *)
Definition most_severe (severity_levels : list TriageSeverity)
  : result TriageSeverity :=
  match severity_levels with
  | _ :: _ =>
      sorted <- sort_by_key (dict_get severity_eqb severity_order)
                            severity_levels ;;
      match sorted with
      | first :: _ => Ok first
      | [] => Raise IndexError
      end
  | [] => Ok SELF_CARE
  end.

(** Lines 166-267: what [classify_severity] does with the parsed list. *)
Definition classify_units (self : TriageAgent) (symptom_list : list str)
  : result TriageSeverity :=
  severity_levels <- classify_loop self symptom_list [] ;;
  most_severe severity_levels.

Definition classify_severity (self : TriageAgent) (symptoms : str)
  : result TriageSeverity :=
  symptom_list <- parse_symptom_list symptoms ;;
  classify_units self symptom_list.

(** *** Pathway and instructions *)

Definition pathway_map : dict TriageSeverity CarePathway :=
  [(EMERGENCY, EMERGENCY_ROOM); (URGENT, URGENT_CARE);
   (SEMI_URGENT, PRIMARY_CARE); (ROUTINE, TELEHEALTH);
   (SELF_CARE, SELF_MANAGEMENT)].

Definition recommend_care_pathway (self : TriageAgent)
  (severity : TriageSeverity) : result CarePathway :=
  dict_get severity_eqb pathway_map severity.

Definition pediatric_indicators : list str :=
  map py [
    "(baby|infant|child|kid|toddler|newborn)";
    "(\d+)[\s-]*(month|year|week)[\s-]*(old)";
    "my son"; "my daughter";
    "pediatric"; "children"
  ]%string.

Definition _is_pediatric_case (self : TriageAgent) (symptoms : str)
  : result bool :=
  _check_pattern_match self symptoms pediatric_indicators.

Definition pediatric_instructions : dict CarePathway str :=
  [(EMERGENCY_ROOM,
    py "SEEK IMMEDIATE MEDICAL ATTENTION FOR YOUR CHILD. Go to the nearest pediatric emergency room or call emergency services (911). " ++
    py "For infants and young children, emergency symptoms require immediate professional evaluation.");
   (URGENT_CARE,
    py "Take your child to a pediatric urgent care center within 24 hours. If symptoms worsen, go to the emergency room immediately. " ++
    py "Children can deteriorate quickly, so close monitoring is essential.");
   (PRIMARY_CARE,
    py "Schedule an appointment with your child's pediatrician within the next few days. " ++
    py "In the meantime, monitor your child's symptoms closely and ensure they stay hydrated.");
   (TELEHEALTH,
    py "Consider scheduling a telehealth appointment with your child's pediatrician. " ++
    py "Have a thermometer and other relevant home medical equipment ready for the consultation.");
   (SELF_MANAGEMENT,
    py "Your child's symptoms can likely be managed at home with appropriate care. " ++
    py "Ensure they get plenty of rest, stay hydrated, and monitor their temperature regularly. " ++
    py "If symptoms persist beyond 48 hours, worsen suddenly, or if your child appears unusually lethargic, consult a healthcare provider.")].

Definition adult_instructions : dict CarePathway str :=
  [(EMERGENCY_ROOM,
    py "SEEK IMMEDIATE MEDICAL ATTENTION. Go to the nearest emergency room or call emergency services (911).");
   (URGENT_CARE,
    py "Visit an urgent care center within 24 hours. If symptoms worsen, go to the emergency room.");
   (PRIMARY_CARE,
    py "Schedule an appointment with your primary care physician within the next few days.");
   (TELEHEALTH,
    py "Consider scheduling a telehealth appointment with a healthcare provider.");
   (SELF_MANAGEMENT,
    py "Your symptoms can likely be managed at home with rest and over-the-counter remedies. " ++
    py "If symptoms persist or worsen, consult a healthcare provider.")].

(** The result dict of [triage_symptoms]. *)
Record TriageResult : Type := {
  severity : str;
  care_pathway : str;
  instructions : str
}.

(** [get_care_instructions] and [triage_symptoms] reach the pediatric check
    through [self]; they are written over the method called, so that what
    depends on it can be stated. *)
Section PediatricCheck.

Variable is_pediatric_case : TriageAgent -> str -> result bool.

Definition get_care_instructions_with (self : TriageAgent)
  (pathway : CarePathway) (symptoms : str) : result str :=
  is_pediatric <- is_pediatric_case self symptoms ;;
  let instructions :=
    if is_pediatric then pediatric_instructions else adult_instructions in
  dict_get pathway_eqb instructions pathway.

Definition triage_symptoms_with (self : TriageAgent) (symptoms : str)
  : result TriageResult :=
  severity <- classify_severity self symptoms ;;
  pathway <- recommend_care_pathway self severity ;;
  instructions <- get_care_instructions_with self pathway symptoms ;;
  Ok {| severity := severity_value severity;
        care_pathway := pathway_value pathway;
        instructions := instructions |}.

End PediatricCheck.

Definition get_care_instructions : TriageAgent -> CarePathway -> str -> result str :=
  get_care_instructions_with _is_pediatric_case.

Definition triage_symptoms : TriageAgent -> str -> result TriageResult :=
  triage_symptoms_with _is_pediatric_case.

End triage_agent.

(* ================================================================= *)
(** ** app.py: the generation step of [analyze_symptoms] *)

Module app.
Import PyStr triage_agent.

Definition MODEL_NAME : str := py "medllama2".

(** The exceptions that reach the handlers of lines 143-157.  The handler
    raises the builtin [ConnectionError] itself (lines 86, 97, 101, 104);
    that class is not [requests.exceptions.ConnectionError]. *)
Inductive error : Type :=
| RequestsTimeout
| RequestsConnectionError (msg : str)
| BuiltinConnectionError (msg : str)
| OtherException (msg : str).

(** What the service answers to the availability probe of line 84:
    unreachable, timed out, or a status code with the model names of the
    body ([None] when the body is not JSON). *)
Inductive health_reply : Type :=
| HealthUnreachable
| HealthTimedOut
| HealthStatus (status_code : nat) (models : option (list str)).

(** The body of the generation reply, as lines 124-142 tell its cases
    apart. *)
Inductive ollama_body : Type :=
| InvalidJson
| JsonError (error_msg : str)
| JsonResponse (response : option str).

(** What the service answers to the generation request of line 106. *)
Inductive generate_reply : Type :=
| PostTimedOut
| PostUnreachable (msg : str)
| PostFailed (msg : str)
| PostBody (body : ollama_body).

Record ollama : Type := {
  health : health_reply;
  generate : generate_reply
}.

(** Lines 83-104: the probe either passes or raises. *)
Definition check_ollama (h : health_reply) : option error :=
  match h with
  | HealthUnreachable | HealthTimedOut =>
      Some (BuiltinConnectionError (py "Ollama service is not running"))
  | HealthStatus status_code models =>
      if negb (status_code =? 200)
      then Some (BuiltinConnectionError (py "Ollama health check failed"))
      else
        match models with
        | None =>
            Some (BuiltinConnectionError
                    (py "Error checking Ollama model availability"))
        | Some names =>
            if existsb (fun name =>
                          str_eqb name (py "medllama2:latest")
                          || str_eqb name MODEL_NAME) names
            then None
            else Some (BuiltinConnectionError
                         (py "Model " ++ MODEL_NAME ++
                          py " not available in Ollama"))
        end
  end.

(** Lines 124-142: the text taken from a reply that arrived. *)
Definition response_of_body (body : ollama_body) : str :=
  match body with
  | InvalidJson =>
      py "I apologize, but I encountered an issue processing your symptoms. Please try again with a more concise description."
  | JsonError error_msg =>
      if contains (py "model requires more system memory") error_msg
      then py "The medical AI model requires more memory than is currently available on this system. " ++
           py "Please try again later when more system resources are available, or consider using a smaller model."
      else py "The medical AI encountered an error: " ++ error_msg ++
           py ". Please try again later."
  | JsonResponse (Some response) => response
  | JsonResponse None => py "I'm sorry, but I couldn't generate a response."
  end.

(** Lines 143-157: the text substituted when the generation step raised. *)
Definition fallback_response (triage_result : TriageResult) (e : error) : str :=
  match e with
  | RequestsTimeout =>
      if str_eqb (severity triage_result) (py "emergency")
      then py "MEDICAL EMERGENCY DETECTED: Your symptoms suggest a potentially life-threatening condition that requires IMMEDIATE medical attention. " ++
           py "Please call emergency services (911) or go to the nearest emergency room immediately. " ++
           py "Do not wait for the AI analysis to complete."
      else py "I apologize for the delay. The analysis is taking longer than expected. Please try again with a more concise description of your main symptoms."
  | RequestsConnectionError _ =>
      py "I'm unable to connect to the medical AI service at the moment. Please ensure Ollama is running with the medllama2 model loaded."
  | BuiltinConnectionError msg | OtherException msg =>
      py "An unexpected error occurred: " ++ msg ++
      py ". Please try again with a simpler description."
  end.

(** Lines 81-157: the generation step. *)
Definition ai_response (service : ollama) (triage_result : TriageResult) : str :=
  match check_ollama (health service) with
  | Some e => fallback_response triage_result e
  | None =>
      match generate service with
      | PostTimedOut => fallback_response triage_result RequestsTimeout
      | PostUnreachable msg =>
          fallback_response triage_result (RequestsConnectionError msg)
      | PostFailed msg => fallback_response triage_result (OtherException msg)
      | PostBody body => response_of_body body
      end
  end.

Record analysis : Type := {
  response : str;
  triage : TriageResult
}.

(** [analyze_symptoms], for a given behaviour of the generation service; an
    exception of the triage step is the HTTP 500 of line 170.  The context
    retrieval of lines 44-51 only feeds the prompt and is left out. *)
Definition analyze_symptoms (agent : TriageAgent) (service : ollama)
  (symptoms : str) : result analysis :=
  triage_result <- triage_symptoms agent symptoms ;;
  Ok {| response := ai_response service triage_result;
        triage := triage_result |}.

(** A text that sends its reader to the emergency services. *)
Definition directs_to_emergency_services (text : str) : bool :=
  contains (py "emergency services") (lower text)
  || contains (py "emergency room") (lower text)
  || contains (py "911") text.

End app.

(* ================================================================= *)
(** ** pubmed_rag.py *)

Module pubmed_rag.
Import PyStr.

(** The exceptions of the module, with the message [str(e)] gives back;
    [PyException] is any other exception a library raises. *)
Inductive exc : Type :=
| PyValueError (msg : str)
| PyRuntimeError (msg : str)
| PyException (msg : str).

Definition str_of (e : exc) : str :=
  match e with
  | PyValueError msg | PyRuntimeError msg | PyException msg => msg
  end.

Inductive outcome (A : Type) : Type :=
| Return (a : A)
| Throw (e : exc).

Arguments Return {A} a.
Arguments Throw {A} e.

Definition and_then {A B : Type} (m : outcome A) (k : A -> outcome B)
  : outcome B :=
  match m with
  | Return a => k a
  | Throw e => Throw e
  end.

Notation "x <~ m ;; k" := (and_then m (fun x => k))
  (at level 61, m at next level, right associativity).

(** [try: ... except Exception as e: raise RuntimeError(f"{prefix}{str(e)}")]. *)
Definition reraise {A : Type} (prefix : str) (m : outcome A) : outcome A :=
  match m with
  | Return a => Return a
  | Throw e => Throw (PyRuntimeError (prefix ++ str_of e))
  end.

(** [s.replace(old, new)] for one-character [old] and [new]. *)
Definition replace_char (old new : ascii) (s : str) : str :=
  map (fun c => if Ascii.eqb c old then new else c) s.

(** [s.split()]: the maximal runs of non-whitespace characters. *)
Fixpoint split_whitespace (s cur : str) : list str :=
  match s with
  | [] => if truthy cur then [cur] else []
  | c :: s' =>
      if isspace c
      then if truthy cur then cur :: split_whitespace s' []
           else split_whitespace s' []
      else split_whitespace s' (cur ++ [c])
  end.

(** [str(i)] for a non-negative integer. *)
Definition str_of_nat (n : nat) : str :=
  list_ascii_of_string (NilEmpty.string_of_uint (Nat.to_uint n)).

(** One record of [articles["PubmedArticle"]], as far as the module reads
    it: the PMID, the title, and the abstract parts when there is an
    abstract. *)
Record medline : Type := {
  PMID : str;
  ArticleTitle : str;
  AbstractText : option (list str)
}.

(** The [article_data] dict. *)
Record article_data : Type := {
  pmid : str;
  title : str;
  abstract : str
}.

(** A LangChain [Document] with the metadata the module sets. *)
Record document : Type := {
  page_content : str;
  metadata_pmid : str;
  metadata_title : str;
  metadata_source : str
}.

(** The libraries behind the pipeline: the Entrez search (the [IdList] of
    the answer, empty when the key is absent) and fetch, the building of a
    FAISS store from documents (after the text splitter) and its similarity
    search.  Each may raise. *)
Record libraries : Type := {
  store : Type;
  esearch : str -> nat -> outcome (list str);
  efetch : list str -> outcome (list medline);
  from_documents : list document -> outcome store;
  similarity_search : store -> str -> nat -> outcome (list document)
}.

Section Pipeline.

Variable lib : libraries.

(** Lines 104-105. *)
Definition general_query (query : str) : str :=
  let general_terms := firstn 3 (split_whitespace query []) in
  join (py " OR ") general_terms.

Definition search_pubmed (query : str) (max_results : nat)
  : outcome (list str) :=
  reraise (py "Failed to search PubMed: ")
    (id_list <~ esearch lib query max_results ;;
     match id_list with
     | [] => esearch lib (general_query query) max_results
     | _ :: _ => Return id_list
     end).

(** Lines 143-156. *)
Definition extract (article : medline) : article_data :=
  {| pmid := PMID article;
     title := ArticleTitle article;
     abstract :=
       match AbstractText article with
       | Some abstract_parts => join (py " ") abstract_parts
       | None => py "No abstract available for this article."
       end |}.

Definition fetch_pubmed_articles (pmids : list str)
  : outcome (list article_data) :=
  match pmids with
  | [] => Throw (PyValueError (py "No PubMed IDs provided to fetch articles"))
  | _ :: _ =>
      reraise (py "Failed to fetch PubMed articles: ")
        (articles <~ efetch lib pmids ;;
         let results := map extract articles in
         match results with
         | [] => Throw (PyValueError
                          (py "Failed to extract article data from PubMed"))
         | _ :: _ => Return results
         end)
  end.

(** Lines 190-201; [mock_mode] is [False] on every constructed object. *)
Definition create_documents_from_articles (articles : list article_data)
  : list document :=
  map (fun article =>
         {| page_content :=
              py "Title: " ++ title article ++ [newline; newline] ++
              py "Abstract: " ++ abstract article;
            metadata_pmid := pmid article;
            metadata_title := title article;
            metadata_source := py "PubMed" |})
      articles.

(** [build_vector_store] gives the new value of [self.vector_store]. *)
Definition build_vector_store (documents : list document)
  : outcome (store lib) :=
  from_documents lib documents.

Definition query_vector_store (vector_store : option (store lib))
  (query : str) (k : nat) : outcome (list document) :=
  match vector_store with
  | None =>
      Throw (PyValueError
               (py "Vector store not initialized. Call build_vector_store first."))
  | Some vs => similarity_search lib vs query k
  end.

(** Line 255. *)
Definition clean (symptoms : str) : str :=
  strip (replace_char "-" " " (replace_char newline " " symptoms)).

Definition process_symptoms (symptoms : str) : outcome (list document) :=
  reraise (py "Failed to process symptoms: ")
    (let clean_symptoms := clean symptoms in
     pmids <~ search_pubmed clean_symptoms 10 ;;
     match pmids with
     | [] => Throw (PyValueError
                      (py "No PubMed articles found for the given symptoms"))
     | _ :: _ =>
         articles <~ fetch_pubmed_articles pmids ;;
         let documents := create_documents_from_articles articles in
         vector_store <~ build_vector_store documents ;;
         query_vector_store (Some vector_store) clean_symptoms 3
     end).

(** Lines 300-307: the loop over [enumerate(relevant_docs, 1)]. *)
Fixpoint add_sources (context : str) (i : nat) (docs : list document) : str :=
  match docs with
  | [] => context
  | doc :: rest =>
      add_sources
        (context ++ py "Source " ++ str_of_nat i ++ py ":" ++ [newline] ++
         page_content doc ++ [newline; newline])
        (S i) rest
  end.

(** Lines 289-313.  The guard counts the characters left by [str.strip]. *)
Definition get_context_from_symptoms (symptoms : str) : outcome str :=
  if negb (truthy symptoms) || (py_len (strip symptoms) <? 3)
  then Throw (PyValueError (py "Symptom text is too short or empty"))
  else
    reraise (py "Failed to retrieve medical context: ")
      (relevant_docs <~ process_symptoms symptoms ;;
       match relevant_docs with
       | [] => Throw (PyValueError
                        (py "No relevant medical literature found for these symptoms"))
       | _ :: _ =>
           Return (add_sources
                     (py "Relevant medical information:" ++ [newline; newline])
                     1 relevant_docs)
       end).

End Pipeline.

End pubmed_rag.

(* ================================================================= *)
(** ** app.py: the retrieval step of [analyze_symptoms] *)

Module app_retrieval.
Import PyStr pubmed_rag.


End app_retrieval.

(* ================================================================= *)
(** * The specification's vocabulary *)

Module Spec.
Import PyStr Re triage_agent.

(** Empty or whitespace-only text. *)
Definition all_space (s : str) : bool := forallb isspace s.

(** Section 3: the explicit ordinal of a severity tier. *)
Definition ordinal (t : TriageSeverity) : nat :=
  match t with
  | EMERGENCY => 0
  | URGENT => 1
  | SEMI_URGENT => 2
  | ROUTINE => 3
  | SELF_CARE => 4
  end.

(** Section 4.4: the pathway table. *)
Definition PathwayMapper (t : TriageSeverity) : CarePathway :=
  match t with
  | EMERGENCY => EMERGENCY_ROOM
  | URGENT => URGENT_CARE
  | SEMI_URGENT => PRIMARY_CARE
  | ROUTINE => TELEHEALTH
  | SELF_CARE => SELF_MANAGEMENT
  end.

(** Section 4.1: the delimiters in priority order; the first that occurs
    splits the whole text, none leaves the text whole; the pieces are
    trimmed and the empty ones dropped. *)
Definition delimiters : list str :=
  [[newline]; py " - "; py "• "; py ", "].

Definition first_delimiter (text : str) : option str :=
  find (fun d => contains d text) delimiters.

Definition Segmenter (text : str) : list str :=
  let pieces :=
    match first_delimiter text with
    | Some d => split_go d text 0 []
    | None => [text]
    end in
  filter truthy (map strip pieces).


(** The whitespace characters outside ASCII, in UTF-8: U+0085, U+00A0,
    U+1680, U+2000 to U+200A, U+2028, U+2029, U+202F, U+205F, U+3000, and
    U+180E, which older versions of Unicode count as whitespace. *)
Definition unicode_spaces : list str :=
  map (map ascii_of_nat)
    ([[194; 133]; [194; 160]; [225; 154; 128]; [225; 160; 142]]
     ++ map (fun n => [226; 128; n]) (List.seq 128 11)
     ++ [[226; 128; 168]; [226; 128; 169]; [226; 128; 175];
         [226; 129; 159]; [227; 128; 128]]).

(** A text whose whitespace characters are all ASCII: on it and on its
    pieces [str.strip] trims what [strip] trims. *)
Definition ascii_spaced (text : str) : bool :=
  forallb (fun w => negb (contains w text)) unicode_spaces.

(** Section 4.2: keyword containment and pattern search, both
    case-insensitive. *)
Definition has (terms : list string) (unit : str) : bool :=
  any_in (map py terms) (lower unit).

Definition pattern_hits (text pattern : str) : bool :=
  match compile pattern with
  | Some r => search_from true r text
  | None => false
  end.

Definition tier_matches (patterns : list str) (unit : str) : bool :=
  existsb (pattern_hits (lower unit)) patterns.

Definition compiles (patterns : list str) : bool :=
  forallb (fun p => match compile p with Some _ => true | None => false end)
          patterns.

Definition worsening_terms : list string :=
  ["worse"; "worsening"; "increased"; "higher"; "elevated"]%string.

Definition chronic_terms : list string :=
  ["chronic"; "persistent"; "ongoing"; "months"; "weeks"]%string.

(** Section 4.2 and 9: the unit classifier as an ordered list of
    (predicate, outcome) rules, evaluated top to bottom. *)
Record rule : Type := {
  applies : str -> bool;
  outcome : str -> TriageSeverity
}.

Definition rules (registry : TriageAgent) : list rule := [
  (* 1. intensifier override *)
  {| applies := fun u =>
       has ["severe"; "extreme"; "intense"; "unbearable"; "worst"] u
       && has ["pain"; "headache"; "chest"; "breathing"] u;
     outcome := fun _ => EMERGENCY |};
  (* 2. domain overrides *)
  {| applies := has ["asthma"];
     outcome := fun u =>
       if has ["attack"; "can't breathe"; "severe"; "emergency"] u
       then EMERGENCY
       else if has worsening_terms u then SEMI_URGENT else ROUTINE |};
  {| applies := has ["blood sugar"; "diabetes"];
     outcome := fun u =>
       if has ["very high"; "extremely"; "dangerously"] u then URGENT
       else if has worsening_terms u then SEMI_URGENT else ROUTINE |};
  {| applies := has ["back pain"];
     outcome := fun u =>
       if has ["severe"; "can't move"; "debilitating"] u then SEMI_URGENT
       else if has chronic_terms u then ROUTINE else SELF_CARE |};
  (* 3. tiered pattern sets *)
  {| applies := tier_matches (emergency_indicators registry);
     outcome := fun _ => EMERGENCY |};
  {| applies := tier_matches (urgent_indicators registry);
     outcome := fun _ => URGENT |};
  {| applies := tier_matches (semi_urgent_indicators registry);
     outcome := fun _ => SEMI_URGENT |};
  {| applies := tier_matches (routine_indicators registry);
     outcome := fun _ => ROUTINE |};
  (* 4. chronic-worsening fallback *)
  {| applies := fun u => has chronic_terms u && has worsening_terms u;
     outcome := fun _ => ROUTINE |}
]%string.

(** The position of the first rule that applies, if any. *)
Fixpoint first_applicable (rs : list rule) (u : str) (i : nat) : option nat :=
  match rs with
  | [] => None
  | r :: rs' => if applies r u then Some i else first_applicable rs' u (S i)
  end.

(** 5. default: [SELF_CARE]. *)
Definition UnitClassifier (registry : TriageAgent) (u : str) : TriageSeverity :=
  match find (fun r => applies r u) (rules registry) with
  | Some r => outcome r u
  | None => SELF_CARE
  end.

(** The rule, by position in [rules], a path of the loop body belongs to;
    [None] is the default. *)
Definition rule_of_branch (b : branch) : option nat :=
  match b with
  | SeverePainBreathing => Some 0
  | SevereAsthma | WorseningAsthma | StableAsthma => Some 1
  | DangerousBloodSugar | ElevatedBloodSugar | BloodSugarConcern => Some 2
  | SevereBackPain | ChronicBackPain | MildBackPain => Some 3
  | EmergencyPattern => Some 4
  | UrgentPattern => Some 5
  | SemiUrgentPattern => Some 6
  | RoutinePattern => Some 7
  | WorseningChronic => Some 8
  | NoPatternMatched => None
  end.

(** The severities the loop collects, one per unit. *)
Definition per_unit (self : TriageAgent) (units : list str)
  : result (list TriageSeverity) :=
  mapM (fun u => r <- classify_symptom self u ;; Ok (fst r)) units.


(** The four pattern lists the classifier searches are well-formed. *)
Definition registry_ok (self : TriageAgent) : bool :=
  compiles (emergency_indicators self)
  && compiles (urgent_indicators self)
  && compiles (semi_urgent_indicators self)
  && compiles (routine_indicators self).

(** Section 3: a result carries a tier, the pathway of that tier, and the
    text one of the two tables holds for that pathway. *)
Definition valid_result (r : TriageResult) : Prop :=
  exists sev,
    severity r = severity_value sev
    /\ care_pathway r = pathway_value (PathwayMapper sev)
    /\ (dict_get pathway_eqb adult_instructions (PathwayMapper sev)
          = Ok (instructions r)
        \/ dict_get pathway_eqb pediatric_instructions (PathwayMapper sev)
          = Ok (instructions r)).


End Spec.

(* ================================================================= *)
(** * Reports and services used as instances *)

Module Cases.
Import PyStr triage_agent app.

(** The report of section 8: a mild rash and a chest pain on two lines. *)
Definition rash_and_chest_pain : str :=
  py "mild rash" ++ [newline] ++ py "chest pain".

(** A report about a child, and its results under the agent's check and
    under a check that always answers no. *)
Definition child_mild_fever : str := py "my child has a mild fever".

Definition never_pediatric (_ : TriageAgent) (_ : str) : result bool :=
  Ok false.

(** A service that is not running, and one that passes the probe and then
    refuses the generation request. *)
Definition service_down : ollama :=
  {| health := HealthUnreachable; generate := PostTimedOut |}.

Definition service_refuses_post : ollama :=
  {| health := HealthStatus 200 (Some [py "medllama2:latest"]);
     generate := PostUnreachable (py "Connection refused") |}.

Definition service_model_error : ollama :=
  {| health := HealthStatus 200 (Some [py "medllama2:latest"]);
     generate := PostBody (JsonError (py "model requires more system memory")) |}.

End Cases.

(* ================================================================= *)
(** * Vocabulary for further properties of the code *)

Module Extra.
Import PyStr Re triage_agent app pubmed_rag Spec.

(** Every character, for facts checked character by character. *)
Definition all_ascii : list ascii := map ascii_of_nat (List.seq 0 256).

Definition is_letter (c : ascii) : bool :=
  let n := nat_of_ascii c in
  ((65 <=? n) && (n <=? 90)) || ((97 <=? n) && (n <=? 122)).

Definition no_letter (s : str) : bool := forallb (fun a => negb (is_letter a)) s.

(** A unit as the parsing leaves it: non-empty and trimmed. *)
Definition trimmed (u : str) : Prop := u <> [] /\ strip u = u.

(** [u] occurs in [s]. *)
Definition infix (u s : str) : Prop := exists pre post, s = pre ++ u ++ post.

(** A text that does not begin with whitespace. *)
Definition inked_head (s : str) : bool :=
  match s with
  | [] => true
  | c :: _ => negb (isspace c)
  end.

(** Literal beginnings of a pattern: every match of [r] begins, up to case,
    with one of [prefixes r]. *)
Fixpoint prefixes (r : regex) : list str :=
  match r with
  | Void => []
  | Chr c => [[c]]
  | Alt r1 r2 => prefixes r1 ++ prefixes r2
  | Cat (Chr c) r2 => map (cons c) (prefixes r2)
  | Cat r1 _ => prefixes r1
  | _ => [[]]
  end.

(** The patterns of the tables that begin with the keyword of a domain
    override, and the agent without them. *)
Definition shadowed (pattern : str) : bool :=
  startswith (py "asthma") pattern
  || startswith (py "blood sugar") pattern
  || startswith (py "back pain") pattern.

Definition without_shadowed (self : TriageAgent) : TriageAgent :=
  {| emergency_indicators := emergency_indicators self;
     urgent_indicators := urgent_indicators self;
     semi_urgent_indicators :=
       filter (fun p => negb (shadowed p)) (semi_urgent_indicators self);
     routine_indicators :=
       filter (fun p => negb (shadowed p)) (routine_indicators self);
     self_care_indicators := self_care_indicators self |}.

(** The words and the age phrase the pediatric check looks for. *)
Definition pediatric_words : list string :=
  ["baby"; "infant"; "child"; "kid"; "toddler"; "newborn";
   "my son"; "my daughter"; "pediatric"]%string.

Definition age_phrase : str := py "(\d+)[\s-]*(month|year|week)[\s-]*(old)".



(** The texts of the retrieval step. *)
Definition context_header : str :=
  py "Relevant medical information:" ++ [newline; newline].

Definition too_short : exc :=
  PyValueError (py "Symptom text is too short or empty").


(** Libraries used as instances: a network that is down, a search that
    finds nothing, and a source with one article whose store gives back the
    documents it was built from. *)
Definition offline : libraries :=
  {| store := unit;
     esearch := fun _ _ => Throw (PyException (py "Network is unreachable"));
     efetch := fun _ => Throw (PyException (py "Network is unreachable"));
     from_documents := fun _ => Return tt;
     similarity_search := fun _ _ _ => Return [] |}.

Definition nothing_found : libraries :=
  {| store := unit;
     esearch := fun _ _ => Return [];
     efetch := fun _ => Return [];
     from_documents := fun _ => Return tt;
     similarity_search := fun _ _ _ => Return [] |}.

Definition one_article : libraries :=
  {| store := list document;
     esearch := fun _ _ => Return [py "31452104"];
     efetch := fun _ =>
       Return [{| PMID := py "31452104";
                  ArticleTitle := py "Tension-type headache";
                  AbstractText := Some [py "Background."; py "Results."] |}];
     from_documents := fun documents => Return documents;
     similarity_search := fun vs _ k => Return (firstn k vs) |}.

End Extra.

(* ================================================================= *)
(** * Facts about the string primitives *)

Import PyStr Re triage_agent app pubmed_rag app_retrieval Spec Cases Extra.

Section StringFacts.

Lemma startswith_app (p r : str) : startswith p (p ++ r) = true.
Proof.
  induction p as [|a p IH]; simpl; [reflexivity|].
  now rewrite Ascii.eqb_refl, IH.
Qed.

Lemma startswith_inv (p s : str) :
  startswith p s = true -> exists r, s = p ++ r.
Proof.
  revert s; induction p as [|a p IH]; intros s H.
  - now exists s.
  - destruct s as [|b s]; simpl in H; [discriminate|].
    apply andb_true_iff in H as [Hab Hps].
    apply Ascii.eqb_eq in Hab; subst b.
    destruct (IH _ Hps) as [r ->]. now exists r.
Qed.

Lemma contains_startswith (sub s : str) :
  startswith sub s = true -> contains sub s = true.
Proof.
  intros H; destruct s; simpl; rewrite H; reflexivity.
Qed.

Lemma contains_intro (sub pre post : str) :
  contains sub (pre ++ sub ++ post) = true.
Proof.
  induction pre as [|c pre IH].
  - simpl. apply contains_startswith, startswith_app.
  - simpl. rewrite IH. apply orb_true_r.
Qed.

Lemma contains_inv (sub s : str) :
  contains sub s = true -> exists pre post, s = pre ++ sub ++ post.
Proof.
  induction s as [|c s IH]; simpl; intros H.
  - rewrite orb_false_r in H. apply startswith_inv in H as [r ->].
    now exists [], r.
  - apply orb_true_iff in H as [H|H].
    + apply startswith_inv in H as [r ->]. now exists [], r.
    + destruct (IH H) as (pre & post & ->). now exists (c :: pre), post.
Qed.

(** *** [split] *)

Lemma split_go_skip (sep : str) :
  forall (s : str) (k : nat) (cur : str),
    k <= List.length s ->
    split_go sep s k cur = split_go sep (skipn k s) 0 cur.
Proof.
  induction s as [|c s IH]; intros k cur Hk.
  - simpl in Hk. assert (k = 0) by lia. subst k. reflexivity.
  - destruct k as [|k]; [reflexivity|].
    simpl in Hk. simpl split_go at 1. simpl skipn. apply IH. lia.
Qed.

Lemma split_go_hit (a : ascii) (sep' rest cur : str) :
  split_go (a :: sep') ((a :: sep') ++ rest) 0 cur
  = cur :: split_go (a :: sep') rest 0 [].
Proof.
  change ((a :: sep') ++ rest) with (a :: (sep' ++ rest)).
  cbn [split_go].
  change (a :: sep' ++ rest) with ((a :: sep') ++ rest).
  rewrite startswith_app.
  f_equal. cbn [List.length]. rewrite Nat.sub_1_r, Nat.pred_succ.
  rewrite split_go_skip by (rewrite length_app; lia).
  rewrite skipn_app, Nat.sub_diag, skipn_all. reflexivity.
Qed.

Lemma split_go_miss (sep : str) (c : ascii) (s cur : str) :
  startswith sep (c :: s) = false ->
  split_go sep (c :: s) 0 cur = split_go sep s 0 (cur ++ [c]).
Proof.
  intros H. cbn [split_go]. rewrite H. reflexivity.
Qed.

Lemma split_go_cons (sep s : str) (k : nat) (cur : str) :
  exists p ps, split_go sep s k cur = p :: ps.
Proof.
  revert k cur; induction s as [|c s IH]; intros k cur; simpl.
  - now exists cur, [].
  - destruct k as [|k]; [|apply IH].
    destruct (startswith sep (c :: s)); [|apply IH].
    now eexists _, _.
Qed.

(** Joining the pieces with the separator gives the text back. *)
Lemma join_split_go (a : ascii) (sep' : str) :
  forall (n : nat) (s cur : str),
    List.length s <= n ->
    join (a :: sep') (split_go (a :: sep') s 0 cur) = cur ++ s.
Proof.
  induction n as [|n IH]; intros s cur Hn.
  - destruct s; [|simpl in Hn; lia]. simpl. now rewrite app_nil_r.
  - destruct s as [|c s]; [simpl; now rewrite app_nil_r|].
    destruct (startswith (a :: sep') (c :: s)) eqn:E.
    + apply startswith_inv in E as [rest E]. rewrite E.
      rewrite split_go_hit.
      destruct (split_go_cons (a :: sep') rest 0 []) as (p & ps & Hp).
      assert (Hlen : List.length rest <= n).
      { apply (f_equal (@List.length ascii)) in E.
        rewrite length_app in E. simpl in E, Hn. lia. }
      specialize (IH rest [] Hlen). rewrite Hp in *.
      cbn [join]. cbn [join] in IH. rewrite IH. reflexivity.
    + rewrite split_go_miss by exact E.
      rewrite IH by (simpl in Hn; lia).
      now rewrite <- app_assoc.
Qed.

Lemma join_split (sep s : str) (pieces : list str) :
  split sep s = Ok pieces -> join sep pieces = s.
Proof.
  unfold split. destruct sep as [|a sep']; [discriminate|].
  intros H; injection H as <-.
  now rewrite (join_split_go a sep' (List.length s) s [] (le_n _)).
Qed.

(** A single piece comes back exactly when the separator does not occur. *)
Lemma split_go_single (a : ascii) (sep' : str) :
  forall (s cur : str),
    List.length (split_go (a :: sep') s 0 cur) = 1
    <-> contains (a :: sep') s = false.
Proof.
  induction s as [|c s IH]; intros cur.
  - simpl. tauto.
  - destruct (startswith (a :: sep') (c :: s)) eqn:E.
    + rewrite (contains_startswith _ _ E).
      apply startswith_inv in E as [rest E]. rewrite E, split_go_hit.
      destruct (split_go_cons (a :: sep') rest 0 []) as (p & ps & ->).
      simpl. split; [lia | discriminate].
    + rewrite split_go_miss by exact E.
      rewrite IH. cbn [contains]. rewrite E. reflexivity.
Qed.

Lemma split_go_not_found (a : ascii) (sep' s : str) :
  contains (a :: sep') s = false -> split_go (a :: sep') s 0 [] = [s].
Proof.
  intros H.
  pose proof (proj2 (split_go_single a sep' s []) H) as Hlen.
  pose proof (join_split_go a sep' (List.length s) s [] (le_n _)) as Hj.
  destruct (split_go (a :: sep') s 0 []) as [|p [|q ps]]; try discriminate.
  simpl in Hj. now subst.
Qed.

(** The characters of the pieces are characters of the text. *)
Lemma split_go_chars (sep : str) :
  forall (s : str) (k : nat) (cur : str),
    Forall (fun p => incl p (cur ++ s)) (split_go sep s k cur).
Proof.
  induction s as [|c s IH]; intros k cur.
  - simpl. constructor; [|constructor]. rewrite app_nil_r. apply incl_refl.
  - assert (Hmono : forall cur' (l : list str),
               incl (cur' ++ s) (cur ++ c :: s) ->
               Forall (fun p => incl p (cur' ++ s)) l ->
               Forall (fun p => incl p (cur ++ c :: s)) l).
    { intros cur' l Hi. apply Forall_impl. intros p Hp.
      eapply incl_tran; eassumption. }
    cbn [split_go]. destruct k as [|k].
    + destruct (startswith sep (c :: s)).
      * constructor; [apply incl_appl, incl_refl|].
        apply (Hmono []); [|apply IH].
        simpl. apply incl_appr, incl_tl, incl_refl.
      * apply (Hmono (cur ++ [c])); [|apply IH].
        rewrite <- app_assoc. apply incl_refl.
    + apply (Hmono cur); [|apply IH].
      apply incl_app; [apply incl_appl, incl_refl|].
      apply incl_appr, incl_tl, incl_refl.
Qed.


(** *** Whitespace *)

Lemma all_space_lstrip (s : str) : all_space (lstrip s) = all_space s.
Proof.
  induction s as [|c s IH]; [reflexivity|].
  simpl. destruct (isspace c) eqn:E; simpl; [exact IH | now rewrite E].
Qed.

Lemma lstrip_nil (s : str) : lstrip s = [] <-> all_space s = true.
Proof.
  induction s as [|c s IH]; simpl; [tauto|].
  destruct (isspace c); simpl; [exact IH|]. split; discriminate.
Qed.

Lemma all_space_rev (s : str) : all_space (rev s) = all_space s.
Proof.
  unfold all_space. induction s as [|c s IH]; [reflexivity|].
  simpl. rewrite forallb_app, IH. simpl.
  rewrite andb_true_r. apply andb_comm.
Qed.

Lemma strip_nil (s : str) : strip s = [] <-> all_space s = true.
Proof.
  unfold strip, rstrip.
  rewrite <- all_space_lstrip, <- all_space_rev, <- lstrip_nil.
  split; intros H.
  - apply (f_equal (@rev ascii)) in H. now rewrite rev_involutive in H.
  - now rewrite H.
Qed.

Lemma truthy_strip (s : str) : truthy (strip s) = negb (all_space s).
Proof.
  destruct (all_space s) eqn:E.
  - apply strip_nil in E. now rewrite E.
  - destruct (strip s) eqn:Es; [|reflexivity].
    apply strip_nil in Es. congruence.
Qed.

Lemma all_space_incl (p s : str) :
  incl p s -> all_space s = true -> all_space p = true.
Proof.
  unfold all_space. rewrite !forallb_forall. intros Hi Hs c Hc. auto.
Qed.

End StringFacts.

(* ================================================================= *)
(** * The matcher decides the language of a pattern *)

Section MatcherFacts.

Variable ic : bool.

Lemma matches_Void_inv (s : str) : ~ matches ic Void s.
Proof. intros H; inversion H. Qed.

Lemma matches_Eps_inv (s : str) : matches ic Eps s -> s = [].
Proof. intros H; now inversion H. Qed.

Lemma matches_Chr_inv (c : ascii) (s : str) :
  matches ic (Chr c) s -> exists x, s = [x] /\ chr_match ic c x = true.
Proof. intros H; inversion H; subst. eauto. Qed.

Lemma matches_Dot_inv (s : str) :
  matches ic Dot s -> exists x, s = [x] /\ dot_match x = true.
Proof. intros H; inversion H; subst. eauto. Qed.

Lemma matches_Cls_inv (items : list citem) (s : str) :
  matches ic (Cls items) s ->
  exists x, s = [x] /\ existsb (fun i => citem_match ic i x) items = true.
Proof. intros H; inversion H; subst. eauto. Qed.

Lemma matches_Cat_inv (r1 r2 : regex) (s : str) :
  matches ic (Cat r1 r2) s ->
  exists s1 s2, s = s1 ++ s2 /\ matches ic r1 s1 /\ matches ic r2 s2.
Proof. intros H; inversion H; subst. eauto. Qed.

Lemma matches_Alt_inv (r1 r2 : regex) (s : str) :
  matches ic (Alt r1 r2) s -> matches ic r1 s \/ matches ic r2 s.
Proof. intros H; inversion H; subst; auto. Qed.

Lemma matches_Star_inv (r : regex) (x : ascii) (s : str) :
  matches ic (Star r) (x :: s) ->
  exists s1 s2,
    s = s1 ++ s2 /\ matches ic r (x :: s1) /\ matches ic (Star r) s2.
Proof.
  intros H.
  remember (Star r) as r' eqn:Er. remember (x :: s) as t eqn:Et.
  revert s Et.
  induction H as [| | | | | | | |r0 s1 s2 H1 _ H2 IH2];
    intros u Et; try discriminate.
  injection Er as ->.
  destruct s1 as [|y s1].
  - simpl in Et. now apply IH2.
  - simpl in Et. injection Et as -> <-. eauto.
Qed.

Lemma mkCat_spec (r1 r2 : regex) (s : str) :
  matches ic (mkCat r1 r2) s <-> matches ic (Cat r1 r2) s.
Proof.
  split.
  - intros H.
    destruct r1; simpl in H;
      try (now apply matches_Void_inv in H);
      try (change s with ([] ++ s); constructor; [constructor | exact H]);
      destruct r2; try exact H; now apply matches_Void_inv in H.
  - intros H. apply matches_Cat_inv in H as (s1 & s2 & -> & H1 & H2).
    destruct r1; simpl;
      try (now apply matches_Void_inv in H1);
      try (apply matches_Eps_inv in H1; subst; exact H2);
      destruct r2; try (now apply matches_Void_inv in H2);
      now constructor.
Qed.

Lemma mkAlt_spec (r1 r2 : regex) (s : str) :
  matches ic (mkAlt r1 r2) s <-> matches ic (Alt r1 r2) s.
Proof.
  split.
  - intros H.
    destruct r1; simpl in H;
      try (now apply MAltR);
      destruct r2; try exact H; now apply MAltL.
  - intros H. apply matches_Alt_inv in H as [H|H].
    + destruct r1; simpl; try (now apply matches_Void_inv in H);
        destruct r2; try exact H; now apply MAltL.
    + destruct r1; simpl; try exact H;
        destruct r2; try (now apply matches_Void_inv in H); now apply MAltR.
Qed.

Lemma nullable_spec (r : regex) :
  nullable r = true <-> matches ic r [].
Proof.
  split.
  - induction r; simpl; intros H; try discriminate.
    + constructor.
    + apply andb_true_iff in H as [H1 H2].
      change (@nil ascii) with (@nil ascii ++ []). constructor; auto.
    + apply orb_true_iff in H as [H|H]; [apply MAltL | apply MAltR]; auto.
    + constructor.
  - intros H. remember (@nil ascii) as s eqn:Es.
    induction H; simpl; try discriminate; auto.
    + apply app_eq_nil in Es as [-> ->]. now rewrite IHmatches1, IHmatches2.
    + now rewrite IHmatches.
    + rewrite IHmatches by assumption. apply orb_true_r.
Qed.

Lemma deriv_spec (x : ascii) (r : regex) :
  forall s : str, matches ic (deriv ic x r) s <-> matches ic r (x :: s).
Proof.
  induction r as [| |c| |items|r1 IH1 r2 IH2|r1 IH1 r2 IH2|r1 IH1];
    intros s; simpl.
  - split; intros H; now apply matches_Void_inv in H.
  - split; intros H; [now apply matches_Void_inv in H | inversion H].
  - split; intros H.
    + destruct (chr_match ic c x) eqn:E; [|now apply matches_Void_inv in H].
      apply matches_Eps_inv in H; subst. now constructor.
    + apply matches_Chr_inv in H as (y & E & Hy).
      injection E as <- ->. rewrite Hy. constructor.
  - split; intros H.
    + destruct (dot_match x) eqn:E; [|now apply matches_Void_inv in H].
      apply matches_Eps_inv in H; subst. now constructor.
    + apply matches_Dot_inv in H as (y & E & Hy).
      injection E as <- ->. rewrite Hy. constructor.
  - split; intros H.
    + destruct (existsb _ items) eqn:E; [|now apply matches_Void_inv in H].
      apply matches_Eps_inv in H; subst. now constructor.
    + apply matches_Cls_inv in H as (y & E & Hy).
      injection E as <- ->. rewrite Hy. constructor.
  - rewrite mkAlt_spec. split; intros H.
    + apply matches_Alt_inv in H as [H|H].
      * apply mkCat_spec, matches_Cat_inv in H as (s1 & s2 & -> & H1 & H2).
        apply IH1 in H1. change (x :: s1 ++ s2) with ((x :: s1) ++ s2).
        now constructor.
      * destruct (nullable r1) eqn:E; [|now apply matches_Void_inv in H].
        apply nullable_spec in E. apply IH2 in H.
        change (x :: s) with ([] ++ x :: s). now constructor.
    + apply matches_Cat_inv in H as (s1 & s2 & E & H1 & H2).
      destruct s1 as [|y s1].
      * simpl in E; subst s2. apply MAltR.
        apply nullable_spec in H1. rewrite H1. now apply IH2.
      * simpl in E; injection E as <- ->. apply MAltL, mkCat_spec.
        constructor; [now apply IH1 | exact H2].
  - rewrite mkAlt_spec. split; intros H.
    + apply matches_Alt_inv in H as [H|H];
        [apply MAltL, IH1 | apply MAltR, IH2]; exact H.
    + apply matches_Alt_inv in H as [H|H];
        [apply MAltL, IH1 | apply MAltR, IH2]; exact H.
  - rewrite mkCat_spec. split; intros H.
    + apply matches_Cat_inv in H as (s1 & s2 & -> & H1 & H2).
      apply IH1 in H1. change (x :: s1 ++ s2) with ((x :: s1) ++ s2).
      now constructor.
    + apply matches_Star_inv in H as (s1 & s2 & -> & H1 & H2).
      constructor; [now apply IH1 | exact H2].
Qed.

Lemma match_here_spec :
  forall (s : str) (r : regex),
    match_here ic r s = true
    <-> exists m post, s = m ++ post /\ matches ic r m.
Proof.
  induction s as [|x s IH]; intros r; simpl.
  - rewrite orb_false_r, nullable_spec. split.
    + intros H. now exists [], [].
    + intros (m & post & E & H). symmetry in E.
      apply app_eq_nil in E as [-> _]. exact H.
  - rewrite orb_true_iff, nullable_spec, IH. split.
    + intros [H | (m & post & -> & H)].
      * now exists [], (x :: s).
      * exists (x :: m), post. split; [reflexivity | now apply deriv_spec].
    + intros (m & post & E & H). destruct m as [|y m].
      * now left.
      * right. simpl in E; injection E as <- ->.
        exists m, post. split; [reflexivity | now apply deriv_spec].
Qed.

(** [search_from] finds a match exactly when some substring of the text is
    in the language of the pattern. *)
Lemma search_from_spec (r : regex) :
  forall s : str,
    search_from ic r s = true
    <-> exists pre m post, s = pre ++ m ++ post /\ matches ic r m.
Proof.
  induction s as [|x s IH].
  - simpl. rewrite !orb_false_r, nullable_spec. split.
    + intros H. now exists [], [], [].
    + intros (pre & m & post & E & H). symmetry in E.
      apply app_eq_nil in E as [_ E]. apply app_eq_nil in E as [-> _].
      exact H.
  - cbn [search_from]. rewrite orb_true_iff, IH, match_here_spec. split.
    + intros [(m & post & E & H) | (pre & m & post & E & H)].
      * exists [], m, post. auto.
      * exists (x :: pre), m, post. subst. auto.
    + intros (pre & m & post & E & H). destruct pre as [|y pre].
      * left. exists m, post. auto.
      * right. simpl in E; injection E as <- ->. exists pre, m, post. auto.
Qed.

End MatcherFacts.

(* ================================================================= *)
(** * Facts about the agent *)

Section AgentFacts.

Lemma any_pattern_ok (text : str) (patterns : list str) :
  compiles patterns = true ->
  any_pattern text patterns = Ok (existsb (pattern_hits text) patterns).
Proof.
  induction patterns as [|p ps IH]; intros H; [reflexivity|].
  simpl in H. apply andb_true_iff in H as [Hp Hps].
  cbn [any_pattern existsb]. unfold Re.search, pattern_hits at 1.
  destruct (compile p) as [r|]; [|discriminate].
  cbn [bind]. destruct (search_from true r text); [reflexivity|].
  now apply IH.
Qed.

Lemma check_pattern_match_ok (self : TriageAgent) (text : str)
  (patterns : list str) :
  compiles patterns = true ->
  _check_pattern_match self text patterns = Ok (tier_matches patterns text).
Proof. intros H. unfold _check_pattern_match. now apply any_pattern_ok. Qed.

Lemma any_in_one (t s : str) : any_in [t] s = contains t s.
Proof. unfold any_in. simpl. apply orb_false_r. Qed.

Lemma any_in_two (t1 t2 s : str) :
  any_in [t1; t2] s = contains t1 s || contains t2 s.
Proof. unfold any_in. simpl. now rewrite orb_false_r. Qed.

Ltac step_classifier :=
  match goal with
  | |- exists b, (if ?c then _ else _) = _ /\ _ =>
      destruct c eqn:?; cbn [outcome applies]
  | |- exists b, bind (_check_pattern_match _ _ _) _ = _ /\ _ =>
      rewrite check_pattern_match_ok by assumption; cbn [bind]
  | |- exists b, Ok (_, ?br) = _ /\ _ =>
      exists br; repeat split; solve [reflexivity | discriminate | auto]
  end.

(** The loop body is the rule list, applied in order. *)
Lemma classify_symptom_rules (self : TriageAgent) (u : str) :
  registry_ok self = true ->
  exists b,
    classify_symptom self u = Ok (UnitClassifier self u, b)
    /\ rule_of_branch b = first_applicable (rules self) u 0
    /\ (UnitClassifier self u = SELF_CARE ->
        b = NoPatternMatched \/ b = MildBackPain).
Proof.
  unfold registry_ok. rewrite !andb_true_iff. intros [[[He Hu] Hs] Hr].
  unfold classify_symptom, UnitClassifier, rules, has,
    worsening_terms, chronic_terms.
  cbn [find first_applicable applies outcome].
  change (map py ["asthma"%string]) with [py "asthma"].
  change (map py ["back pain"%string]) with [py "back pain"].
  change (map py ["blood sugar"%string; "diabetes"%string])
    with [py "blood sugar"; py "diabetes"].
  rewrite !any_in_one, any_in_two.
  repeat step_classifier.
Qed.

Lemma classify_loop_per_unit (self : TriageAgent) :
  forall (units : list str) (acc : list TriageSeverity),
    classify_loop self units acc
    = (tiers <- per_unit self units ;; Ok (acc ++ tiers)).
Proof.
  unfold per_unit.
  induction units as [|u units IH]; intros acc.
  - simpl. now rewrite app_nil_r.
  - cbn [classify_loop mapM].
    destruct (classify_symptom self u) as [r|e]; [|reflexivity].
    cbn [bind]. rewrite IH.
    destruct (mapM _ units) as [tiers|e]; [|reflexivity].
    cbn [bind]. now rewrite <- app_assoc.
Qed.

Lemma per_unit_ok (self : TriageAgent) (units : list str) :
  registry_ok self = true ->
  per_unit self units = Ok (map (UnitClassifier self) units).
Proof.
  intros Hok. unfold per_unit.
  induction units as [|u units IH]; [reflexivity|].
  cbn [mapM map].
  destruct (classify_symptom_rules self u Hok) as (b & -> & _ & _).
  cbn [bind fst]. rewrite IH. reflexivity.
Qed.

Lemma init_registry_ok : registry_ok __init__ = true.
Proof. vm_compute. reflexivity. Qed.

Lemma init_pediatric_ok : compiles pediatric_indicators = true.
Proof. vm_compute. reflexivity. Qed.

(** *** The sort and its first element *)

Lemma severity_order_lookup (levels : list TriageSeverity) :
  mapM (dict_get severity_eqb severity_order) levels
  = Ok (map ordinal levels).
Proof.
  induction levels as [|t levels IH]; [reflexivity|].
  cbn [mapM map]. rewrite IH. now destruct t.
Qed.

Lemma combine_map_self {A B : Type} (f : A -> B) (l : list A) :
  combine (map f l) l = map (fun a => (f a, a)) l.
Proof. induction l as [|a l IH]; simpl; congruence. Qed.

Lemma sorted_head {A : Type} (x : nat * A) (l : list (nat * A)) :
  exists m rest,
    fold_right insert_keyed [] (x :: l) = m :: rest
    /\ In m (x :: l)
    /\ Forall (fun y => fst m <= fst y) (x :: l).
Proof.
  revert x; induction l as [|y l IH]; intros x.
  - exists x, []. simpl. repeat split; auto.
  - destruct (IH y) as (m & rest & Hs & Hin & Hmin).
    cbn [fold_right] in Hs |- *. rewrite Hs. cbn [insert_keyed].
    destruct (fst x <=? fst m) eqn:E.
    + apply Nat.leb_le in E. exists x, (m :: rest).
      repeat split; [now left|].
      constructor; [lia|].
      eapply Forall_impl; [|exact Hmin]. simpl. intros; lia.
    + apply Nat.leb_gt in E. exists m, (insert_keyed x rest).
      repeat split; [now right|].
      constructor; [lia | exact Hmin].
Qed.

Lemma ordinal_inj (a b : TriageSeverity) : ordinal a = ordinal b -> a = b.
Proof. destruct a, b; simpl; intros H; congruence. Qed.

(** The first element after the sort is a severity of the list with the
    least ordinal. *)
Lemma most_severe_min (t0 : TriageSeverity) (levels : list TriageSeverity) :
  exists t,
    most_severe (t0 :: levels) = Ok t
    /\ In t (t0 :: levels)
    /\ Forall (fun t' => ordinal t <= ordinal t') (t0 :: levels).
Proof.
  unfold most_severe, sort_by_key.
  rewrite severity_order_lookup. cbn [bind].
  rewrite combine_map_self. cbn [map].
  destruct (sorted_head (ordinal t0, t0) (map (fun a => (ordinal a, a)) levels))
    as (m & rest & -> & Hin & Hmin).
  cbn [map]. exists (snd m).
  change ((ordinal t0, t0) :: map (fun a => (ordinal a, a)) levels)
    with (map (fun a => (ordinal a, a)) (t0 :: levels)) in Hin, Hmin.
  apply in_map_iff in Hin as (t & <- & Ht).
  repeat split; [exact Ht|].
  rewrite Forall_map in Hmin. exact Hmin.
Qed.

Lemma classify_units_ok (self : TriageAgent) (units : list str) :
  registry_ok self = true ->
  classify_units self units = most_severe (map (UnitClassifier self) units).
Proof.
  intros Hok. unfold classify_units.
  rewrite classify_loop_per_unit, per_unit_ok by exact Hok.
  reflexivity.
Qed.

End AgentFacts.

(* ================================================================= *)
(** * Facts about the segmentation *)

Section SegmenterFacts.

Lemma split_ok (sep s : str) :
  sep <> [] -> split sep s = Ok (split_go sep s 0 []).
Proof. destruct sep; [congruence | reflexivity]. Qed.

Lemma filter_strip (pieces : list str) :
  map strip (filter (fun s => truthy (strip s)) pieces)
  = filter truthy (map strip pieces).
Proof.
  induction pieces as [|p ps IH]; [reflexivity|].
  simpl. destruct (truthy (strip p)); simpl; congruence.
Qed.

Lemma delimiter_nonempty (d : str) : In d delimiters -> d <> [].
Proof.
  unfold delimiters. simpl.
  intros [<-|[<-|[<-|[<-|[]]]]]; discriminate.
Qed.

Lemma first_delimiter_in (text d : str) :
  first_delimiter text = Some d -> In d delimiters /\ contains d text = true.
Proof.
  unfold first_delimiter. intros H.
  apply (find_some (fun d => contains d text)) in H. exact H.
Qed.

(** The parsing of lines 150-162 is the segmenter of section 4.1. *)
Lemma parse_symptom_list_Segmenter (symptoms : str) :
  parse_symptom_list symptoms = Ok (Segmenter symptoms).
Proof.
  unfold parse_symptom_list, Segmenter, first_delimiter, delimiters.
  rewrite split_ok by discriminate. cbn [bind find].
  destruct (contains [newline] symptoms) eqn:Enl.
  - destruct (List.length (split_go [newline] symptoms 0 []) =? 1) eqn:El.
    + apply Nat.eqb_eq, split_go_single in El. congruence.
    + cbn [bind]. now rewrite filter_strip.
  - rewrite (proj2 (split_go_single _ _ symptoms []) Enl). cbn [Nat.eqb].
    rewrite (split_go_not_found _ _ _ Enl).
    destruct (contains (py " - ") symptoms);
      [rewrite split_ok by discriminate; cbn [bind]; now rewrite filter_strip|].
    destruct (contains (py "• ") symptoms);
      [rewrite split_ok by discriminate; cbn [bind]; now rewrite filter_strip|].
    destruct (contains (py ", ") symptoms);
      [rewrite split_ok by discriminate; cbn [bind]; now rewrite filter_strip|].
    cbn [bind]. now rewrite filter_strip.
Qed.

Lemma blank_pieces_dropped (pieces : list str) :
  Forall (fun p => all_space p = true) pieces ->
  filter truthy (map strip pieces) = [].
Proof.
  induction 1 as [|p ps Hp _ IH]; [reflexivity|].
  simpl. rewrite truthy_strip, Hp. exact IH.
Qed.





Lemma Segmenter_blank (text : str) :
  all_space text = true -> Segmenter text = [].
Proof.
  intros H. unfold Segmenter. apply blank_pieces_dropped.
  destruct (first_delimiter text) as [d|].
  - eapply Forall_impl; [|apply (split_go_chars d text 0 [])].
    intros p Hp. simpl in Hp. eapply all_space_incl; eassumption.
  - now constructor.
Qed.


End SegmenterFacts.

(* ================================================================= *)
(** * Facts about the whole triage *)

Section TriageFacts.

Lemma most_severe_total (levels : list TriageSeverity) :
  exists t, most_severe levels = Ok t.
Proof.
  destruct levels as [|t0 levels]; [now exists SELF_CARE|].
  destruct (most_severe_min t0 levels) as (t & H & _). now exists t.
Qed.

Lemma classify_severity_units (symptoms : str) :
  classify_severity __init__ symptoms
  = most_severe (map (UnitClassifier __init__) (Segmenter symptoms)).
Proof.
  unfold classify_severity.
  rewrite parse_symptom_list_Segmenter. cbn [bind].
  apply classify_units_ok, init_registry_ok.
Qed.

Lemma classify_severity_total (symptoms : str) :
  exists sev, classify_severity __init__ symptoms = Ok sev.
Proof. rewrite classify_severity_units. apply most_severe_total. Qed.

Lemma recommend_care_pathway_table (self : TriageAgent)
  (sev : TriageSeverity) :
  recommend_care_pathway self sev = Ok (PathwayMapper sev).
Proof. now destruct sev. Qed.

Lemma instructions_total (ped : bool) (p : CarePathway) :
  exists text,
    dict_get pathway_eqb
      (if ped then pediatric_instructions else adult_instructions) p
    = Ok text.
Proof. destruct ped, p; eexists; reflexivity. Qed.

Lemma is_pediatric_case_total (self : TriageAgent) (symptoms : str) :
  _is_pediatric_case self symptoms
  = Ok (tier_matches pediatric_indicators symptoms).
Proof. apply check_pattern_match_ok, init_pediatric_ok. Qed.

(** What [triage_symptoms] returns, for any pediatric check that answers. *)
Lemma triage_symptoms_with_value
  (detector : TriageAgent -> str -> result bool)
  (symptoms : str) (ped : bool) (sev : TriageSeverity) (text : str) :
  detector __init__ symptoms = Ok ped ->
  classify_severity __init__ symptoms = Ok sev ->
  dict_get pathway_eqb
    (if ped then pediatric_instructions else adult_instructions)
    (PathwayMapper sev) = Ok text ->
  triage_symptoms_with detector __init__ symptoms
  = Ok {| severity := severity_value sev;
          care_pathway := pathway_value (PathwayMapper sev);
          instructions := text |}.
Proof.
  intros Hd Hs Ht. unfold triage_symptoms_with, get_care_instructions_with.
  rewrite Hs. cbn [bind]. rewrite recommend_care_pathway_table. cbn [bind].
  rewrite Hd. cbn [bind]. rewrite Ht. reflexivity.
Qed.

Lemma triage_symptoms_result (symptoms : str) :
  exists sev text,
    classify_severity __init__ symptoms = Ok sev
    /\ dict_get pathway_eqb
         (if tier_matches pediatric_indicators symptoms
          then pediatric_instructions else adult_instructions)
         (PathwayMapper sev) = Ok text
    /\ triage_symptoms __init__ symptoms
       = Ok {| severity := severity_value sev;
               care_pathway := pathway_value (PathwayMapper sev);
               instructions := text |}.
Proof.
  destruct (classify_severity_total symptoms) as (sev & Hsev).
  destruct (instructions_total (tier_matches pediatric_indicators symptoms)
              (PathwayMapper sev)) as (text & Htext).
  exists sev, text. repeat split; try assumption.
  apply (triage_symptoms_with_value _is_pediatric_case symptoms _ _ _
           (is_pediatric_case_total __init__ symptoms) Hsev Htext).
Qed.

(** The severity and pathway of a result do not depend on the check. *)
Lemma triage_symptoms_with_inv
  (detector : TriageAgent -> str -> result bool)
  (symptoms : str) (r : TriageResult) :
  triage_symptoms_with detector __init__ symptoms = Ok r ->
  exists sev,
    classify_severity __init__ symptoms = Ok sev
    /\ severity r = severity_value sev
    /\ care_pathway r = pathway_value (PathwayMapper sev).
Proof.
  unfold triage_symptoms_with.
  destruct (classify_severity __init__ symptoms) as [sev|e]; [|discriminate].
  cbn [bind]. rewrite recommend_care_pathway_table. cbn [bind].
  destruct (get_care_instructions_with _ _ _ _) as [text|e]; [|discriminate].
  cbn [bind]. intros H; injection H as <-. now exists sev.
Qed.

(** *** The duration words *)

Lemma search_from_mono (ic : bool) (r : regex) (t s : str) :
  contains t s = true -> search_from ic r t = true ->
  search_from ic r s = true.
Proof.
  intros Hc Hs.
  apply contains_inv in Hc as (pre & post & ->).
  apply search_from_spec in Hs as (pre' & m & post' & -> & Hm).
  apply search_from_spec.
  exists (pre ++ pre'), m, (post' ++ post).
  split; [|exact Hm]. now rewrite <- !app_assoc.
Qed.




End TriageFacts.

(* ================================================================= *)
(** * The primitives and the agent on concrete inputs *)

Section Examples.

(** [split] as Python has it: occurrences are taken left to right and do
    not overlap; an occurrence at an end leaves an empty piece. *)
Example split_comma_space :
  split (py ", ") (py "a, b,, c, ") = Ok [py "a"; py "b,"; py "c"; []].
Proof. reflexivity. Qed.

Example split_overlapping :
  split (py "aa") (py "aaaxaaaa") = Ok [[]; py "ax"; []; []].
Proof. reflexivity. Qed.

Example split_empty_separator : split [] (py "abc") = Raise ValueError.
Proof. reflexivity. Qed.

Example strip_inner_space_kept : strip (py "  a b  ") = py "a b".
Proof. reflexivity. Qed.

(** Patterns of the tables, parsed. *)
Example compile_mild_rash_or_pain :
  compile (py "mild (rash|pain)")
  = Some (Cat (Chr "m") (Cat (Chr "i") (Cat (Chr "l") (Cat (Chr "d")
      (Cat (Chr " ")
         (Alt (Cat (Chr "r") (Cat (Chr "a") (Cat (Chr "s") (Chr "h"))))
              (Cat (Chr "p") (Cat (Chr "a") (Cat (Chr "i") (Chr "n"))))))))))%char.
Proof. reflexivity. Qed.

Example compile_age_phrase :
  compile (py "(\d+)[\s-]*(old)")
  = Some (Cat (Cat (Cls [CDigit]) (Star (Cls [CDigit])))
            (Cat (Star (Cls [CSpace; CChr "-"]))
               (Cat (Chr "o") (Cat (Chr "l") (Chr "d")))))%char.
Proof. reflexivity. Qed.

Example compile_optional_group :
  compile (py "d(a)?.*")
  = Some (Cat (Chr "d") (Cat (Alt (Chr "a") Eps) (Star Dot)))%char.
Proof. reflexivity. Qed.

Example compile_unbalanced : compile (py "(rash") = None.
Proof. reflexivity. Qed.

(** The dot does not cross a newline; the search is case-insensitive. *)
Example search_dot_stops_at_newline :
  Re.search (py "a.*b") (py "a" ++ [newline] ++ py "b") true = Ok false
  /\ Re.search (py "a.*b") (py "xa--by") true = Ok true
  /\ Re.search (py "chest pain") (py "CHEST PAIN") true = Ok true
  /\ Re.search (py "chest pain") (py "CHEST PAIN") false = Ok false.
Proof. repeat split; vm_compute; reflexivity. Qed.

(** The examples of section 8 of the specification. *)
Example severe_headache_is_emergency :
  classify_symptom __init__
    (py "I have a severe headache with fever and stiff neck")
  = Ok (EMERGENCY, SeverePainBreathing).
Proof. vm_compute. reflexivity. Qed.

Example common_cold_is_self_care_by_default :
  classify_symptom __init__ (py "common cold") = Ok (SELF_CARE, NoPatternMatched).
Proof. vm_compute. reflexivity. Qed.

Example child_mild_fever_is_routine :
  classify_symptom __init__ child_mild_fever = Ok (ROUTINE, RoutinePattern)
  /\ _is_pediatric_case __init__ child_mild_fever = Ok true
  /\ get_care_instructions __init__ TELEHEALTH child_mild_fever
     = dict_get pathway_eqb pediatric_instructions TELEHEALTH.
Proof. repeat split; vm_compute; reflexivity. Qed.

End Examples.

(* ================================================================= *)
(** * The properties of the specification *)

(** C1: when the report parses into at least one symptom unit,
    [classify_severity] returns a severity that is among the per-unit
    severities and whose ordinal, under Emergency=0 < Urgent=1 <
    SemiUrgent=2 < Routine=3 < SelfCare=4, is the least of them. *)
Theorem C1_overall_severity_is_worst_unit :
  forall (symptoms : str) (units : list str),
    parse_symptom_list symptoms = Ok units ->
    units <> [] ->
    exists tiers t,
      per_unit __init__ units = Ok tiers
      /\ classify_severity __init__ symptoms = Ok t
      /\ In t tiers
      /\ Forall (fun t' => ordinal t <= ordinal t') tiers.
Proof.
  intros symptoms units Hparse Hne.
  rewrite parse_symptom_list_Segmenter in Hparse. injection Hparse as Hu.
  rewrite classify_severity_units, Hu.
  rewrite per_unit_ok by apply init_registry_ok.
  destruct units as [|u units]; [congruence|].
  cbn [map].
  destruct (most_severe_min (UnitClassifier __init__ u)
              (map (UnitClassifier __init__) units)) as (t & Ht & Hin & Hmin).
  eauto 6.
Qed.

Lemma C1_witness :
  parse_symptom_list rash_and_chest_pain
    = Ok [py "mild rash"; py "chest pain"]
  /\ [py "mild rash"; py "chest pain"] <> []
  /\ exists tiers t,
       per_unit __init__ [py "mild rash"; py "chest pain"] = Ok tiers
       /\ classify_severity __init__ rash_and_chest_pain = Ok t
       /\ In t tiers
       /\ Forall (fun t' => ordinal t <= ordinal t') tiers.
Proof.
  split; [vm_compute; reflexivity|].
  split; [discriminate|].
  apply (C1_overall_severity_is_worst_unit rash_and_chest_pain).
  - vm_compute; reflexivity.
  - discriminate.
Defined.



(** C3: [triage_symptoms] returns a valid result on every input and raises
    on none; on an empty or whitespace-only input the result is the
    self-care severity with the self-management pathway. *)
Theorem C3_triage_is_total :
  forall symptoms : str,
    exists r,
      triage_symptoms __init__ symptoms = Ok r
      /\ valid_result r
      /\ (all_space symptoms = true ->
          severity r = severity_value SELF_CARE
          /\ care_pathway r = pathway_value SELF_MANAGEMENT).
Proof.
  intros symptoms.
  destruct (triage_symptoms_result symptoms) as (sev & text & Hsev & Htext & Hr).
  eexists. split; [exact Hr|]. split.
  - exists sev. cbn [severity care_pathway instructions].
    repeat split.
    destruct (tier_matches pediatric_indicators symptoms); auto.
  - intros Hblank. cbn [severity care_pathway].
    rewrite classify_severity_units, (Segmenter_blank _ Hblank) in Hsev.
    injection Hsev as <-. split; reflexivity.
Qed.

Lemma C3_witness :
  all_space (py "   ") = true
  /\ exists r,
       triage_symptoms __init__ (py "   ") = Ok r
       /\ severity r = severity_value SELF_CARE
       /\ care_pathway r = pathway_value SELF_MANAGEMENT.
Proof.
  split; [reflexivity|].
  destruct (C3_triage_is_total (py "   ")) as (r & Hr & _ & Hblank).
  exists r. split; [exact Hr|]. apply Hblank. reflexivity.
Defined.




(** C5: [recommend_care_pathway] is the table Emergency to emergency room,
    Urgent to urgent care, SemiUrgent to primary care, Routine to telehealth,
    SelfCare to self-management; it answers on each of the five tiers, no two
    tiers share a pathway, and the result of [triage_symptoms] carries, on
    every input, the pathway of the severity it carries. *)
Theorem C5_pathway_is_mapped_from_severity :
  (forall self sev, recommend_care_pathway self sev = Ok (PathwayMapper sev))
  /\ (forall a b, PathwayMapper a = PathwayMapper b -> a = b)
  /\ (forall symptoms,
        exists r sev,
          triage_symptoms __init__ symptoms = Ok r
          /\ severity r = severity_value sev
          /\ care_pathway r = pathway_value (PathwayMapper sev)).
Proof.
  split; [exact recommend_care_pathway_table|]. split.
  - intros a b H. destruct a, b; simpl in H; congruence.
  - intros symptoms.
    destruct (triage_symptoms_result symptoms) as (sev & text & _ & _ & Hr).
    eexists. exists sev. split; [exact Hr|]. split; reflexivity.
Qed.

Lemma C5_witness :
  PathwayMapper ROUTINE = PathwayMapper ROUTINE /\ ROUTINE = ROUTINE.
Proof.
  split; [reflexivity|].
  destruct C5_pathway_is_mapped_from_severity as (_ & Hinj & _).
  apply Hinj. reflexivity.
Defined.

(** C6: the pediatric check is a truth value computed on the whole report;
    it chooses between the two instruction tables, which are then read at
    the pathway of the severity; the severity and the pathway of the result
    are the same whatever check is put in its place. *)
Theorem C6_pediatric_check_only_selects_instructions :
  forall symptoms : str,
    (exists ped sev r,
       _is_pediatric_case __init__ symptoms = Ok ped
       /\ classify_severity __init__ symptoms = Ok sev
       /\ triage_symptoms __init__ symptoms = Ok r
       /\ dict_get pathway_eqb
            (if ped then pediatric_instructions else adult_instructions)
            (PathwayMapper sev) = Ok (instructions r))
    /\ (forall detector1 detector2 r1 r2,
          triage_symptoms_with detector1 __init__ symptoms = Ok r1 ->
          triage_symptoms_with detector2 __init__ symptoms = Ok r2 ->
          severity r1 = severity r2 /\ care_pathway r1 = care_pathway r2).
Proof.
  intros symptoms. split.
  - destruct (triage_symptoms_result symptoms)
      as (sev & text & Hsev & Htext & Hr).
    exists (tier_matches pediatric_indicators symptoms), sev.
    eexists. split; [apply is_pediatric_case_total|].
    split; [exact Hsev|]. split; [exact Hr|]. exact Htext.
  - intros detector1 detector2 r1 r2 H1 H2.
    apply triage_symptoms_with_inv in H1 as (sev1 & Hs1 & -> & ->).
    apply triage_symptoms_with_inv in H2 as (sev2 & Hs2 & -> & ->).
    rewrite Hs1 in Hs2. injection Hs2 as <-. split; reflexivity.
Qed.

Lemma C6_witness :
  exists r1 r2,
    triage_symptoms_with _is_pediatric_case __init__ child_mild_fever = Ok r1
    /\ triage_symptoms_with never_pediatric __init__ child_mild_fever = Ok r2
    /\ instructions r1 <> instructions r2
    /\ severity r1 = severity r2
    /\ care_pathway r1 = care_pathway r2.
Proof.
  eexists. eexists.
  split; [vm_compute; reflexivity|].
  split; [vm_compute; reflexivity|].
  split; [cbn [instructions]; discriminate|].
  destruct (C6_pediatric_check_only_selects_instructions child_mild_fever)
    as (_ & Hsame).
  apply (Hsame _is_pediatric_case never_pediatric);
    vm_compute; reflexivity.
Defined.

(** The check reads the whole report, not the units: an age phrase broken
    over two lines is found, though neither line holds it. *)
Example pediatric_check_spans_lines :
  _is_pediatric_case __init__ (py "12" ++ [newline] ++ py "month old")
    = Ok true
  /\ _is_pediatric_case __init__ (py "12") = Ok false
  /\ _is_pediatric_case __init__ (py "month old") = Ok false.
Proof. repeat split; vm_compute; reflexivity. Qed.

(** C7, as the code has it: the report "mild rash", newline, "chest pain"
    parses into the units "mild rash" and "chest pain"; their severities are
    Routine (the routine pattern for a mild rash or pain) and Emergency; the
    overall severity is Emergency and the pathway the emergency room. *)
Theorem C7_rash_and_chest_pain :
  parse_symptom_list rash_and_chest_pain
    = Ok [py "mild rash"; py "chest pain"]
  /\ classify_symptom __init__ (py "mild rash") = Ok (ROUTINE, RoutinePattern)
  /\ classify_symptom __init__ (py "chest pain")
     = Ok (EMERGENCY, EmergencyPattern)
  /\ per_unit __init__ [py "mild rash"; py "chest pain"]
     = Ok [ROUTINE; EMERGENCY]
  /\ classify_severity __init__ rash_and_chest_pain = Ok EMERGENCY
  /\ recommend_care_pathway __init__ EMERGENCY = Ok EMERGENCY_ROOM
  /\ exists text,
       triage_symptoms __init__ rash_and_chest_pain
       = Ok {| severity := py "emergency";
               care_pathway := py "emergency_room";
               instructions := text |}.
Proof.
  repeat split; try (vm_compute; reflexivity).
  eexists. vm_compute. reflexivity.
Qed.

(** C7 as stated fails: the per-unit severities are not SelfCare and
    Emergency, the unit "mild rash" being Routine. *)
Lemma C7_mild_rash_is_not_self_care :
  per_unit __init__ [py "mild rash"; py "chest pain"]
  <> Ok [SELF_CARE; EMERGENCY].
Proof. vm_compute. discriminate. Qed.

(** *** The generation fallback *)

(** When the generation request times out on an Emergency report, the text
    substituted sends the user to the emergency services. *)
Lemma timeout_fallback_directs_to_emergency_services
  (service : ollama) (symptoms : str) (a : analysis) :
  check_ollama (health service) = None ->
  generate service = PostTimedOut ->
  analyze_symptoms __init__ service symptoms = Ok a ->
  severity (triage a) = severity_value EMERGENCY ->
  directs_to_emergency_services (response a) = true.
Proof.
  intros Hh Hg Ha Hsev. unfold analyze_symptoms in Ha.
  destruct (triage_symptoms __init__ symptoms) as [r|e]; [|discriminate].
  cbn [bind] in Ha. injection Ha as <-.
  cbn [response triage] in *. unfold ai_response.
  rewrite Hh, Hg. unfold fallback_response. rewrite Hsev.
  vm_compute. reflexivity.
Qed.

(** C8, on the code: for the Emergency report "chest pain", the text
    substituted when the service is not running, when it refuses the
    generation request, and when the model reports an error, does not send
    the user to the emergency services. *)
Theorem C8_fallback_without_emergency_directive :
  (exists a,
     analyze_symptoms __init__ service_down (py "chest pain") = Ok a
     /\ severity (triage a) = severity_value EMERGENCY
     /\ response a
        = py "An unexpected error occurred: Ollama service is not running. Please try again with a simpler description."
     /\ directs_to_emergency_services (response a) = false)
  /\ (exists a,
        analyze_symptoms __init__ service_refuses_post (py "chest pain") = Ok a
        /\ severity (triage a) = severity_value EMERGENCY
        /\ response a
           = py "I'm unable to connect to the medical AI service at the moment. Please ensure Ollama is running with the medllama2 model loaded."
        /\ directs_to_emergency_services (response a) = false)
  /\ (exists a,
        analyze_symptoms __init__ service_model_error (py "chest pain") = Ok a
        /\ severity (triage a) = severity_value EMERGENCY
        /\ directs_to_emergency_services (response a) = false).
Proof.
  repeat split; eexists;
    (split; [vm_compute; reflexivity|]);
    repeat split; vm_compute; reflexivity.
Qed.

(** C9: the overall severity of a list of symptom units is the same for
    every reordering of the list. *)
Theorem C9_severity_is_order_independent :
  forall units units' : list str,
    Permutation units units' ->
    exists t,
      classify_units __init__ units = Ok t
      /\ classify_units __init__ units' = Ok t.
Proof.
  intros units units' Hperm.
  rewrite !classify_units_ok by apply init_registry_ok.
  apply (Permutation_map (UnitClassifier __init__)) in Hperm.
  destruct (map (UnitClassifier __init__) units) as [|t0 levels].
  - apply Permutation_nil in Hperm. rewrite Hperm. now exists SELF_CARE.
  - destruct (map (UnitClassifier __init__) units') as [|t0' levels'].
    + apply Permutation_sym, Permutation_nil in Hperm. discriminate.
    + destruct (most_severe_min t0 levels) as (t & Ht & Hin & Hmin).
      destruct (most_severe_min t0' levels') as (t' & Ht' & Hin' & Hmin').
      exists t. split; [exact Ht|]. rewrite Ht'. f_equal.
      apply ordinal_inj. rewrite Forall_forall in Hmin, Hmin'.
      apply Nat.le_antisymm.
      * apply Hmin'. eapply Permutation_in; eassumption.
      * apply Hmin. eapply Permutation_in; [apply Permutation_sym|]; eassumption.
Qed.

Lemma C9_witness :
  Permutation [py "mild rash"; py "chest pain"; py "high fever"]
              [py "high fever"; py "mild rash"; py "chest pain"]
  /\ exists t,
       classify_units __init__ [py "mild rash"; py "chest pain"; py "high fever"]
         = Ok t
       /\ classify_units __init__ [py "high fever"; py "mild rash"; py "chest pain"]
         = Ok t.
Proof.
  assert (Hperm :
    Permutation [py "mild rash"; py "chest pain"; py "high fever"]
                [py "high fever"; py "mild rash"; py "chest pain"]).
  { apply Permutation_sym. apply (Permutation_cons_app [_; _] []).
    apply Permutation_refl. }
  split; [exact Hperm|].
  apply (C9_severity_is_order_independent _ _ Hperm).
Defined.




(* ================================================================= *)
(** * Further properties of the code *)

(** ** Case *)

Section CaseFacts.

Lemma all_ascii_complete (c : ascii) : In c all_ascii.
Proof.
  unfold all_ascii. rewrite <- (ascii_nat_embedding c).
  apply in_map, in_seq. pose proof (nat_ascii_bounded c). lia.
Qed.

Lemma forall_ascii (P : ascii -> bool) :
  forallb P all_ascii = true -> forall c, P c = true.
Proof.
  intros H c. rewrite forallb_forall in H. apply H, all_ascii_complete.
Qed.

Lemma lower_char_idem (c : ascii) : lower_char (lower_char c) = lower_char c.
Proof.
  apply Ascii.eqb_eq. revert c.
  apply (forall_ascii (fun c => Ascii.eqb (lower_char (lower_char c)) (lower_char c))).
  vm_compute. reflexivity.
Qed.

Lemma isspace_lower_char (c : ascii) : isspace (lower_char c) = isspace c.
Proof.
  apply Bool.eqb_prop. revert c.
  apply (forall_ascii (fun c => Bool.eqb (isspace (lower_char c)) (isspace c))).
  vm_compute. reflexivity.
Qed.

Lemma eqb_lower_char (a c : ascii) :
  is_letter a = false -> Ascii.eqb a (lower_char c) = Ascii.eqb a c.
Proof.
  intros Ha. apply Bool.eqb_prop.
  assert (H : implb (negb (is_letter a))
                (Bool.eqb (Ascii.eqb a (lower_char c)) (Ascii.eqb a c)) = true).
  { revert c. apply forall_ascii. revert a Ha.
    assert (Hall : forall a,
               forallb (fun c => implb (negb (is_letter a))
                  (Bool.eqb (Ascii.eqb a (lower_char c)) (Ascii.eqb a c)))
                 all_ascii = true).
    { apply (forall_ascii (fun a => forallb (fun c => implb (negb (is_letter a))
                  (Bool.eqb (Ascii.eqb a (lower_char c)) (Ascii.eqb a c)))
                 all_ascii)).
      vm_compute. reflexivity. }
    intros a _. apply Hall. }
  rewrite Ha in H. exact H.
Qed.

Lemma lower_idem (s : str) : lower (lower s) = lower s.
Proof.
  unfold lower. rewrite map_map. apply map_ext. exact lower_char_idem.
Qed.

Lemma startswith_lower (sep : str) :
  no_letter sep = true ->
  forall s, startswith sep (lower s) = startswith sep s.
Proof.
  induction sep as [|a sep IH]; intros Hsep s; [reflexivity|].
  simpl in Hsep. apply andb_true_iff in Hsep as [Ha Hsep].
  apply negb_true_iff in Ha.
  destruct s as [|c s]; [reflexivity|].
  simpl. now rewrite eqb_lower_char, IH.
Qed.

Lemma contains_lower (sep : str) :
  no_letter sep = true ->
  forall s, contains sep (lower s) = contains sep s.
Proof.
  intros Hsep. induction s as [|c s IH].
  - reflexivity.
  - change (lower (c :: s)) with (lower_char c :: lower s).
    cbn [contains]. rewrite <- IH.
    change (lower_char c :: lower s) with (lower (c :: s)).
    now rewrite startswith_lower.
Qed.

Lemma split_go_lower (sep : str) :
  no_letter sep = true ->
  forall s k cur,
    split_go sep (lower s) k (lower cur) = map lower (split_go sep s k cur).
Proof.
  intros Hsep. induction s as [|c s IH]; intros k cur; [reflexivity|].
  change (lower (c :: s)) with (lower_char c :: lower s).
  cbn [split_go]. destruct k as [|k]; [|apply IH].
  change (lower_char c :: lower s) with (lower (c :: s)).
  rewrite startswith_lower by exact Hsep.
  destruct (startswith sep (c :: s)).
  - cbn [map]. f_equal. apply (IH _ []).
  - rewrite <- IH. f_equal. unfold lower. now rewrite map_app.
Qed.

Lemma lstrip_lower (s : str) : lstrip (lower s) = lower (lstrip s).
Proof.
  induction s as [|c s IH]; [reflexivity|].
  simpl. rewrite isspace_lower_char. now destruct (isspace c).
Qed.

Lemma strip_lower (s : str) : strip (lower s) = lower (strip s).
Proof.
  unfold strip, rstrip. rewrite lstrip_lower.
  unfold lower at 1. rewrite <- map_rev.
  change (map lower_char (rev (lstrip s))) with (lower (rev (lstrip s))).
  rewrite lstrip_lower. unfold lower. now rewrite map_rev.
Qed.

Lemma units_lower (pieces : list str) :
  filter truthy (map strip (map lower pieces))
  = map lower (filter truthy (map strip pieces)).
Proof.
  induction pieces as [|p ps IH]; [reflexivity|].
  cbn [map filter]. rewrite strip_lower.
  assert (E : truthy (lower (strip p)) = truthy (strip p))
    by now destruct (strip p).
  rewrite E. destruct (truthy (strip p)); cbn [map]; now rewrite IH.
Qed.

Lemma delimiter_no_letter (d : str) : In d delimiters -> no_letter d = true.
Proof.
  unfold delimiters. simpl.
  intros [<-|[<-|[<-|[<-|[]]]]]; reflexivity.
Qed.

Lemma Segmenter_lower (text : str) :
  Segmenter (lower text) = map lower (Segmenter text).
Proof.
  unfold Segmenter.
  assert (E : first_delimiter (lower text) = first_delimiter text).
  { unfold first_delimiter, delimiters. cbn [find].
    now rewrite !contains_lower by reflexivity. }
  rewrite E. destruct (first_delimiter text) as [d|] eqn:Ed.
  - apply first_delimiter_in in Ed as [Hd _].
    apply delimiter_no_letter in Hd.
    change (@nil ascii) with (lower []) at 1.
    rewrite split_go_lower by exact Hd. apply units_lower.
  - apply (units_lower [text]).
Qed.

Lemma classify_symptom_lower (self : TriageAgent) (u : str) :
  classify_symptom self (lower u) = classify_symptom self u.
Proof.
  unfold classify_symptom, _check_pattern_match.
  rewrite lower_idem. reflexivity.
Qed.

Lemma classify_loop_lower (self : TriageAgent) :
  forall units acc,
    classify_loop self (map lower units) acc = classify_loop self units acc.
Proof.
  induction units as [|u units IH]; intros acc; [reflexivity|].
  cbn [map classify_loop]. rewrite classify_symptom_lower.
  destruct (classify_symptom self u); cbn [bind]; [apply IH | reflexivity].
Qed.

Lemma triage_symptoms_lower (self : TriageAgent) (symptoms : str) :
  triage_symptoms self (lower symptoms) = triage_symptoms self symptoms.
Proof.
  unfold triage_symptoms, triage_symptoms_with, classify_severity,
    get_care_instructions_with, _is_pediatric_case, _check_pattern_match.
  rewrite !parse_symptom_list_Segmenter, Segmenter_lower, lower_idem.
  cbn [bind]. unfold classify_units. rewrite classify_loop_lower.
  reflexivity.
Qed.

(** X1: the triage does not look at letter case: two reports that differ
    only in the case of ASCII letters get the same result, severity,
    pathway and instructions, whatever the pattern tables of the agent. *)
Theorem triage_ignores_case :
  forall (self : TriageAgent) (symptoms symptoms' : str),
    lower symptoms = lower symptoms' ->
    triage_symptoms self symptoms = triage_symptoms self symptoms'.
Proof.
  intros self symptoms symptoms' H.
  rewrite <- (triage_symptoms_lower self symptoms).
  rewrite <- (triage_symptoms_lower self symptoms').
  now rewrite H.
Qed.

Lemma triage_ignores_case_witness :
  lower (py "Chest PAIN, Mild Rash") = lower (py "chest pain, mild rash")
  /\ triage_symptoms __init__ (py "Chest PAIN, Mild Rash")
     = triage_symptoms __init__ (py "chest pain, mild rash").
Proof.
  split; [reflexivity|].
  apply triage_ignores_case. reflexivity.
Defined.

End CaseFacts.

(** ** The units of a report *)

Section UnitFacts.

Lemma infix_refl (s : str) : infix s s.
Proof. exists [], []. now rewrite app_nil_r. Qed.

Lemma infix_trans (a b c : str) : infix a b -> infix b c -> infix a c.
Proof.
  intros (p1 & q1 & ->) (p2 & q2 & ->).
  exists (p2 ++ p1), (q1 ++ q2). now rewrite <- !app_assoc.
Qed.

Lemma infix_contains (u s : str) : infix u s -> contains u s = true.
Proof. intros (pre & post & ->). apply contains_intro. Qed.

Lemma infix_incl (u s : str) : infix u s -> incl u s.
Proof.
  intros (pre & post & ->) c Hc.
  apply in_or_app. right. apply in_or_app. now left.
Qed.

Lemma lstrip_suffix (s : str) : exists pre, s = pre ++ lstrip s.
Proof.
  induction s as [|c s (pre & IH)]; [now exists []|].
  simpl. destruct (isspace c).
  - exists (c :: pre). simpl. now f_equal.
  - now exists [].
Qed.

Lemma rstrip_prefix (s : str) : exists post, s = rstrip s ++ post.
Proof.
  unfold rstrip. destruct (lstrip_suffix (rev s)) as (pre & H).
  exists (rev pre). rewrite <- rev_app_distr, <- H. now rewrite rev_involutive.
Qed.

Lemma strip_infix (s : str) : infix (strip s) s.
Proof.
  unfold strip. destruct (lstrip_suffix s) as (pre & Hpre).
  destruct (rstrip_prefix (lstrip s)) as (post & Hpost).
  exists pre, post. now rewrite <- Hpost.
Qed.

Lemma lstrip_inked_head (s : str) : inked_head (lstrip s) = true.
Proof.
  induction s as [|c s IH]; [reflexivity|].
  simpl. destruct (isspace c) eqn:E; [exact IH|]. simpl. now rewrite E.
Qed.

Lemma lstrip_fixed (s : str) : inked_head s = true -> lstrip s = s.
Proof.
  destruct s as [|c s]; [reflexivity|]. simpl. intros H.
  apply negb_true_iff in H. now rewrite H.
Qed.

Lemma rstrip_inked_head (s : str) :
  inked_head s = true -> inked_head (rstrip s) = true.
Proof.
  intros H. destruct (rstrip_prefix s) as (post & Hpost).
  destruct (rstrip s) as [|x r]; [reflexivity|].
  destruct s as [|c s]; [discriminate|].
  simpl in Hpost. injection Hpost as -> _. exact H.
Qed.

Lemma rstrip_idem (s : str) : rstrip (rstrip s) = rstrip s.
Proof.
  unfold rstrip. rewrite rev_involutive.
  now rewrite (lstrip_fixed _ (lstrip_inked_head (rev s))).
Qed.

Lemma strip_idem (s : str) : strip (strip s) = strip s.
Proof.
  unfold strip.
  rewrite (lstrip_fixed (rstrip (lstrip s))).
  - apply rstrip_idem.
  - apply rstrip_inked_head, lstrip_inked_head.
Qed.

Lemma in_join_infix (sep : str) :
  forall (pieces : list str) (p : str),
    In p pieces -> infix p (join sep pieces).
Proof.
  induction pieces as [|q qs IH]; intros p Hin; [destruct Hin|].
  destruct qs as [|q' qs].
  - destruct Hin as [<-|[]]. apply infix_refl.
  - change (join sep (q :: q' :: qs)) with (q ++ sep ++ join sep (q' :: qs)).
    destruct Hin as [<-|Hin].
    + exists [], (sep ++ join sep (q' :: qs)). reflexivity.
    + destruct (IH p Hin) as (pre & post & E).
      exists (q ++ sep ++ pre), post. rewrite E.
      now rewrite <- !app_assoc.
Qed.

Lemma contains_single (a : ascii) (s : str) :
  contains [a] s = true <-> In a s.
Proof.
  induction s as [|c s IH]; simpl; [split; [discriminate | tauto]|].
  rewrite andb_true_r, orb_true_iff, IH, Ascii.eqb_eq.
  split; intros [H|H]; auto.
Qed.

Lemma split_char_free (a : ascii) :
  forall s cur,
    ~ In a cur -> Forall (fun p => ~ In a p) (split_go [a] s 0 cur).
Proof.
  induction s as [|c s IH]; intros cur Hcur.
  - simpl. now repeat constructor.
  - cbn [split_go startswith]. rewrite andb_true_r.
    destruct (Ascii.eqb a c) eqn:E.
    + constructor; [exact Hcur|]. apply IH. intros [].
    + apply IH. intros H. apply in_app_or in H as [H|[H|[]]]; [auto|].
      subst c. now rewrite Ascii.eqb_refl in E.
Qed.

(** The pieces the segmenter cuts, before trimming. *)
Lemma Segmenter_pieces (text : str) :
  exists pieces,
    Segmenter text = filter truthy (map strip pieces)
    /\ Forall (fun p => infix p text /\ ~ In newline p) pieces.
Proof.
  unfold Segmenter. destruct (first_delimiter text) as [d|] eqn:Ed.
  - exists (split_go d text 0 []). split; [reflexivity|].
    pose proof Ed as Hd. apply first_delimiter_in in Hd as [Hd _].
    pose proof (delimiter_nonempty d Hd) as Hne.
    pose proof (join_split d text _ (split_ok d text Hne)) as Hj.
    apply Forall_forall. intros p Hp. split.
    + rewrite <- Hj. now apply in_join_infix.
    + unfold first_delimiter, delimiters in Ed. cbn [find] in Ed.
      destruct (contains [newline] text) eqn:Enl.
      * injection Ed as <-.
        pose proof (split_char_free newline text [] (fun H => H)) as Hfree.
        rewrite Forall_forall in Hfree. now apply Hfree.
      * intros Hin. assert (Hc : In newline text).
        { rewrite <- Hj. destruct (in_join_infix d _ p Hp) as (a & b & ->).
          apply in_or_app. right. apply in_or_app. now left. }
        apply contains_single in Hc. congruence.
  - exists [text]. split; [reflexivity|].
    constructor; [|constructor]. split; [apply infix_refl|].
    unfold first_delimiter, delimiters in Ed. cbn [find] in Ed.
    destruct (contains [newline] text) eqn:Enl; [discriminate|].
    intros Hin. apply contains_single in Hin. congruence.
Qed.

(** X2: every unit the parsing returns is non-empty, has no whitespace at
    either end, occurs in the report as written, and holds no newline. *)
Theorem units_are_trimmed_pieces_of_the_report :
  forall (symptoms : str) (units : list str),
    parse_symptom_list symptoms = Ok units ->
    Forall (fun u =>
              trimmed u
              /\ contains u symptoms = true
              /\ ~ In newline u) units.
Proof.
  intros symptoms units H.
  rewrite parse_symptom_list_Segmenter in H. injection H as <-.
  destruct (Segmenter_pieces symptoms) as (pieces & -> & Hpieces).
  apply Forall_forall. intros u Hu.
  apply filter_In in Hu as [Hu Htruthy].
  apply in_map_iff in Hu as (p & <- & Hp).
  rewrite Forall_forall in Hpieces. destruct (Hpieces p Hp) as [Hinfix Hnl].
  repeat split.
  - intros E. now rewrite E in Htruthy.
  - apply strip_idem.
  - apply infix_contains. eapply infix_trans; [apply strip_infix | exact Hinfix].
  - intros Hin. apply Hnl. exact (infix_incl _ _ (strip_infix p) _ Hin).
Qed.

Lemma units_are_trimmed_pieces_of_the_report_witness :
  parse_symptom_list (py "  fever ,  dry cough, ")
    = Ok [py "fever"; py "dry cough"]
  /\ Forall (fun u =>
               trimmed u
               /\ contains u (py "  fever ,  dry cough, ") = true
               /\ ~ In newline u) [py "fever"; py "dry cough"].
Proof.
  split; [vm_compute; reflexivity|].
  apply (units_are_trimmed_pieces_of_the_report (py "  fever ,  dry cough, ")).
  vm_compute; reflexivity.
Defined.

Lemma split_go_pass (a : ascii) :
  forall u rest cur,
    ~ In a u ->
    split_go [a] (u ++ rest) 0 cur = split_go [a] rest 0 (cur ++ u).
Proof.
  induction u as [|c u IH]; intros rest cur Hu.
  - now rewrite app_nil_r.
  - change ((c :: u) ++ rest) with (c :: (u ++ rest)).
    cbn [split_go startswith]. rewrite andb_true_r.
    destruct (Ascii.eqb a c) eqn:E.
    + apply Ascii.eqb_eq in E. subst c. exfalso. apply Hu. now left.
    + rewrite IH by (intros H; apply Hu; now right).
      now rewrite <- app_assoc.
Qed.

Lemma split_join_char (a : ascii) :
  forall (us : list str) (u cur : str),
    Forall (fun p => ~ In a p) (u :: us) ->
    split_go [a] (join [a] (u :: us)) 0 cur = (cur ++ u) :: us.
Proof.
  induction us as [|v vs IH]; intros u cur Hfree.
  - cbn [join]. rewrite <- (app_nil_r u) at 1.
    rewrite split_go_pass by now inversion Hfree. reflexivity.
  - inversion Hfree as [|? ? Hu Hrest]; subst.
    change (join [a] (u :: v :: vs)) with (u ++ a :: join [a] (v :: vs)).
    rewrite split_go_pass by exact Hu.
    cbn [split_go startswith]. rewrite Ascii.eqb_refl. cbn [andb List.length Nat.sub].
    f_equal. now rewrite IH.
Qed.

Lemma trimmed_units_kept (units : list str) :
  Forall trimmed units -> filter truthy (map strip units) = units.
Proof.
  induction 1 as [|u us [Hne Hu] _ IH]; [reflexivity|].
  cbn [map filter]. rewrite Hu.
  destruct u as [|c u]; [congruence|]. cbn [truthy]. now rewrite IH.
Qed.

(** X3: a report that lists two or more symptoms one per line, each
    non-empty, trimmed, without a newline and with no whitespace character
    outside ASCII, parses back into exactly those symptoms, in order; the
    other delimiters inside a line are not used. *)
Theorem one_symptom_per_line_round_trip :
  forall units : list str,
    2 <= List.length units ->
    Forall (fun u => trimmed u /\ ~ In newline u /\ ascii_spaced u = true)
      units ->
    parse_symptom_list (join [newline] units) = Ok units.
Proof.
  intros units Hlen Hunits.
  destruct units as [|u [|v vs]]; try (simpl in Hlen; lia).
  rewrite parse_symptom_list_Segmenter. f_equal. unfold Segmenter.
  assert (Hnl : contains [newline] (join [newline] (u :: v :: vs)) = true).
  { change (join [newline] (u :: v :: vs))
      with (u ++ [newline] ++ join [newline] (v :: vs)).
    apply contains_intro. }
  unfold first_delimiter, delimiters. cbn [find]. rewrite Hnl.
  rewrite (split_join_char newline (v :: vs) u []).
  - apply trimmed_units_kept. eapply Forall_impl; [|exact Hunits].
    now intros ? [? _].
  - eapply Forall_impl; [|exact Hunits]. now intros ? (_ & ? & _).
Qed.

Lemma one_symptom_per_line_round_trip_witness :
  2 <= List.length [py "fever, chills"; py "cough - dry"]
  /\ Forall (fun u => trimmed u /\ ~ In newline u /\ ascii_spaced u = true)
       [py "fever, chills"; py "cough - dry"]
  /\ parse_symptom_list (join [newline] [py "fever, chills"; py "cough - dry"])
     = Ok [py "fever, chills"; py "cough - dry"].
Proof.
  assert (Hu : Forall (fun u => trimmed u /\ ~ In newline u
                                /\ ascii_spaced u = true)
                 [py "fever, chills"; py "cough - dry"]).
  { repeat constructor; try discriminate; try reflexivity;
      intros H; vm_compute in H; repeat (destruct H as [H|H]; try discriminate H);
      exact H. }
  split; [simpl; lia|]. split; [exact Hu|].
  apply one_symptom_per_line_round_trip; [simpl; lia | exact Hu].
Defined.

End UnitFacts.

(** ** The aggregation *)

Section AggregationFacts.

Lemma most_severe_some (levels : list TriageSeverity) :
  exists t,
    most_severe levels = Ok t
    /\ (levels = [] -> t = SELF_CARE)
    /\ (levels <> [] -> In t levels)
    /\ Forall (fun t' => ordinal t <= ordinal t') levels.
Proof.
  destruct levels as [|t0 levels].
  - exists SELF_CARE.
    split; [reflexivity|]. split; [reflexivity|].
    split; [congruence | constructor].
  - destruct (most_severe_min t0 levels) as (t & Ht & Hin & Hmin).
    exists t. split; [exact Ht|]. split; [discriminate|].
    split; [intros _; exact Hin | exact Hmin].
Qed.

Lemma ordinal_bound (t : TriageSeverity) : ordinal t <= 4.
Proof. destruct t; simpl; lia. Qed.

Lemma classify_symptom_tier (u : str) (t : TriageSeverity) (b : branch) :
  classify_symptom __init__ u = Ok (t, b) -> UnitClassifier __init__ u = t.
Proof.
  intros H.
  destruct (classify_symptom_rules __init__ u init_registry_ok)
    as (b' & Hb & _).
  rewrite Hb in H. now injection H.
Qed.

Lemma classify_symptom_of_tier (u : str) :
  exists b, classify_symptom __init__ u = Ok (UnitClassifier __init__ u, b).
Proof.
  destruct (classify_symptom_rules __init__ u init_registry_ok)
    as (b & Hb & _).
  now exists b.
Qed.

(** X4: adding symptom units to a list, in front or behind, never makes
    the overall severity less severe. *)
Theorem more_units_never_less_severe :
  forall units more : list str,
    exists t t1 t2,
      classify_units __init__ units = Ok t
      /\ classify_units __init__ (units ++ more) = Ok t1
      /\ classify_units __init__ (more ++ units) = Ok t2
      /\ ordinal t1 <= ordinal t
      /\ ordinal t2 <= ordinal t.
Proof.
  intros units more.
  rewrite !classify_units_ok by apply init_registry_ok.
  rewrite !map_app.
  set (A := map (UnitClassifier __init__) units).
  set (B := map (UnitClassifier __init__) more).
  destruct (most_severe_some A) as (t & Ht & Hnil & Hin & _).
  destruct (most_severe_some (A ++ B)) as (t1 & Ht1 & _ & _ & Hmin1).
  destruct (most_severe_some (B ++ A)) as (t2 & Ht2 & _ & _ & Hmin2).
  exists t, t1, t2. repeat split; try assumption.
  - destruct A as [|a A'] eqn:EA.
    + rewrite (Hnil eq_refl). apply ordinal_bound.
    + rewrite Forall_forall in Hmin1. apply Hmin1.
      apply in_or_app. left. apply Hin. discriminate.
  - destruct A as [|a A'] eqn:EA.
    + rewrite (Hnil eq_refl). apply ordinal_bound.
    + rewrite Forall_forall in Hmin2. apply Hmin2.
      apply in_or_app. right. apply Hin. discriminate.
Qed.

(** X5: the overall severity of a list of units is Emergency exactly when
    some unit is Emergency, and SelfCare exactly when every unit is
    SelfCare. *)
Theorem overall_extremes :
  forall units : list str,
    (classify_units __init__ units = Ok EMERGENCY
     <-> exists u b,
           In u units /\ classify_symptom __init__ u = Ok (EMERGENCY, b))
    /\ (classify_units __init__ units = Ok SELF_CARE
        <-> forall u, In u units ->
              exists b, classify_symptom __init__ u = Ok (SELF_CARE, b)).
Proof.
  intros units.
  rewrite classify_units_ok by apply init_registry_ok.
  destruct (most_severe_some (map (UnitClassifier __init__) units))
    as (t & Ht & Hnil & Hin & Hmin).
  rewrite Ht. rewrite Forall_forall in Hmin. split; split.
  - intros E. injection E as ->.
    destruct units as [|u0 units]; [now specialize (Hnil eq_refl)|].
    specialize (Hin ltac:(discriminate)).
    apply in_map_iff in Hin as (u & Hu & Huin).
    destruct (classify_symptom_of_tier u) as (b & Hb).
    rewrite Hu in Hb. now exists u, b.
  - intros (u & b & Huin & Hb). apply classify_symptom_tier in Hb.
    f_equal. apply ordinal_inj.
    assert (H : ordinal t <= ordinal EMERGENCY).
    { apply Hmin. rewrite <- Hb. now apply in_map. }
    simpl in *. lia.
  - intros E u Huin. injection E as ->.
    destruct (classify_symptom_of_tier u) as (b & Hb).
    exists b. rewrite Hb. repeat f_equal. apply ordinal_inj.
    pose proof (Hmin _ (in_map (UnitClassifier __init__) _ _ Huin)) as H.
    pose proof (ordinal_bound (UnitClassifier __init__ u)).
    simpl in *. lia.
  - intros Hall. f_equal.
    destruct units as [|u0 units]; [now apply Hnil|].
    specialize (Hin ltac:(discriminate)).
    apply in_map_iff in Hin as (u & <- & Huin).
    destruct (Hall u Huin) as (b & Hb).
    now apply classify_symptom_tier in Hb.
Qed.

Lemma overall_extremes_witness :
  (exists u b,
     In u [py "mild rash"; py "chest pain"]
     /\ classify_symptom __init__ u = Ok (EMERGENCY, b))
  /\ classify_units __init__ [py "mild rash"; py "chest pain"] = Ok EMERGENCY.
Proof.
  assert (H : exists u b,
             In u [py "mild rash"; py "chest pain"]
             /\ classify_symptom __init__ u = Ok (EMERGENCY, b)).
  { exists (py "chest pain"), EmergencyPattern.
    split; [right; now left | vm_compute; reflexivity]. }
  split; [exact H|].
  destruct (overall_extremes [py "mild rash"; py "chest pain"]) as [[_ Hem] _].
  exact (Hem H).
Defined.

End AggregationFacts.

(** ** The overrides and the pattern search *)

Section OverrideFacts.

Lemma contains_trans (a b c : str) :
  contains a b = true -> contains b c = true -> contains a c = true.
Proof.
  intros H1 H2. apply infix_contains.
  apply contains_inv in H1. apply contains_inv in H2.
  exact (infix_trans a b c H1 H2).
Qed.

Lemma any_in_intro (t : str) (terms : list str) (s : str) :
  In t terms -> contains t s = true -> any_in terms s = true.
Proof.
  intros Hin Hc. unfold any_in. apply existsb_exists. now exists t.
Qed.

(** X6: a unit that mentions back pain and the word "severe" is Emergency,
    by the intensifier override: "pain" is part of "back pain".  The
    keyword "severe" of the back-pain override therefore never decides. *)
Theorem severe_back_pain_is_emergency :
  forall (self : TriageAgent) (u : str),
    contains (py "back pain") (lower u) = true ->
    contains (py "severe") (lower u) = true ->
    classify_symptom self u = Ok (EMERGENCY, SeverePainBreathing).
Proof.
  intros self u Hback Hsevere. unfold classify_symptom.
  assert (H1 : any_in (map py ["severe"; "extreme"; "intense"; "unbearable";
                               "worst"]%string) (lower u) = true).
  { apply (any_in_intro (py "severe")); [now left | exact Hsevere]. }
  assert (H2 : any_in (map py ["pain"; "headache"; "chest"; "breathing"]%string)
                 (lower u) = true).
  { apply (any_in_intro (py "pain")); [now left|].
    apply (contains_trans _ (py "back pain")); [reflexivity | exact Hback]. }
  now rewrite H1, H2.
Qed.

Lemma severe_back_pain_is_emergency_witness :
  contains (py "back pain") (lower (py "Back pain, not severe")) = true
  /\ contains (py "severe") (lower (py "Back pain, not severe")) = true
  /\ classify_symptom __init__ (py "Back pain, not severe")
     = Ok (EMERGENCY, SeverePainBreathing).
Proof.
  split; [reflexivity|]. split; [reflexivity|].
  apply severe_back_pain_is_emergency; reflexivity.
Defined.

Lemma any_pattern_app (text : str) (good rest : list str) :
  compiles good = true ->
  any_pattern text (good ++ rest)
  = if existsb (pattern_hits text) good then Ok true
    else any_pattern text rest.
Proof.
  induction good as [|p ps IH]; intros H; [reflexivity|].
  simpl in H. apply andb_true_iff in H as [Hp Hps].
  cbn [app any_pattern existsb]. unfold Re.search, pattern_hits at 1.
  destruct (compile p) as [r|]; [|discriminate].
  cbn [bind]. destruct (search_from true r text); [reflexivity|].
  now apply IH.
Qed.

(** X7: a malformed pattern in a list raises only when the search gets to
    it.  For an ASCII text, ASCII patterns of the fragment and then a
    pattern that is [malformed] (its parentheses do not balance): if one of
    the patterns before it matches, the check answers true; if none does,
    the check raises [re.error]. *)
Theorem malformed_pattern_raises_when_reached :
  forall (self : TriageAgent) (text : str) (good : list str) (bad : str)
         (rest : list str),
    is_ascii text = true ->
    forallb is_ascii good = true ->
    compiles good = true ->
    compile bad = None ->
    malformed bad = true ->
    _check_pattern_match self text (good ++ bad :: rest)
    = if tier_matches good text then Ok true else Raise ReError.
Proof.
  intros self text good bad rest _ _ Hgood Hbad Hmal.
  unfold _check_pattern_match, tier_matches.
  rewrite any_pattern_app by exact Hgood.
  destruct (existsb _ good); [reflexivity|].
  cbn [any_pattern]. unfold Re.search. now rewrite Hbad, Hmal.
Qed.

Lemma malformed_pattern_raises_when_reached_witness :
  is_ascii (py "Mild rash") = true
  /\ is_ascii (py "cough") = true
  /\ forallb is_ascii [py "rash"] = true
  /\ compiles [py "rash"] = true
  /\ compile (py "(fever") = None
  /\ malformed (py "(fever") = true
  /\ _check_pattern_match __init__ (py "Mild rash") [py "rash"; py "(fever"]
     = Ok true
  /\ _check_pattern_match __init__ (py "cough") [py "rash"; py "(fever"]
     = Raise ReError.
Proof.
  do 6 (split; [reflexivity|]). split.
  - apply (malformed_pattern_raises_when_reached __init__ (py "Mild rash")
             [py "rash"] (py "(fever") []); reflexivity.
  - apply (malformed_pattern_raises_when_reached __init__ (py "cough")
             [py "rash"] (py "(fever") []); reflexivity.
Defined.

End OverrideFacts.

(** ** Literal beginnings of patterns *)

Section PrefixFacts.

Lemma lower_app_fixed (a b : str) :
  lower (a ++ b) = a ++ b -> lower a = a /\ lower b = b.
Proof.
  induction a as [|c a IH]; simpl; intros H; [now split|].
  injection H as Hc H. destruct (IH H) as [Ha Hb].
  split; [now rewrite Hc, Ha | exact Hb].
Qed.

Lemma matches_prefixes (r : regex) :
  forall m : str,
    matches true r m ->
    exists p m1 m2,
      In p (prefixes r) /\ m = m1 ++ m2 /\ lower m1 = lower p.
Proof.
  induction r as [| |c| |items|r1 IH1 r2 IH2|r1 IH1 r2 IH2|r1 IH1];
    intros m Hm.
  - now apply matches_Void_inv in Hm.
  - exists [], [], m. simpl. auto.
  - apply matches_Chr_inv in Hm as (x & -> & Hx).
    exists [c], [x], []. simpl. repeat split; auto.
    unfold chr_match in Hx. apply Ascii.eqb_eq in Hx. now rewrite Hx.
  - exists [], [], m. simpl. auto.
  - exists [], [], m. simpl. auto.
  - apply matches_Cat_inv in Hm as (s1 & s2 & -> & H1 & H2).
    assert (Hgen : exists p m1 m2,
               In p (prefixes r1) /\ s1 ++ s2 = m1 ++ m2
               /\ lower m1 = lower p).
    { destruct (IH1 s1 H1) as (p & m1 & m2 & Hp & -> & Hl).
      exists p, m1, (m2 ++ s2). now rewrite <- app_assoc. }
    destruct r1; try exact Hgen.
    apply matches_Chr_inv in H1 as (x & -> & Hx).
    destruct (IH2 s2 H2) as (p & m1 & m2 & Hp & -> & Hl).
    exists (c :: p), (x :: m1), m2. cbn [prefixes].
    split; [now apply in_map|]. split; [reflexivity|].
    unfold chr_match in Hx. apply Ascii.eqb_eq in Hx.
    simpl. now rewrite Hx, Hl.
  - apply matches_Alt_inv in Hm as [Hm|Hm].
    + destruct (IH1 m Hm) as (p & m1 & m2 & Hp & E & Hl).
      exists p, m1, m2. cbn [prefixes]. split; [apply in_or_app; now left | auto].
    + destruct (IH2 m Hm) as (p & m1 & m2 & Hp & E & Hl).
      exists p, m1, m2. cbn [prefixes]. split; [apply in_or_app; now right | auto].
  - exists [], [], m. simpl. auto.
Qed.

(** A pattern found in a lowered text has one of its literal beginnings,
    lowered, in that text. *)
Lemma search_prefixes (r : regex) (u : str) :
  search_from true r (lower u) = true ->
  any_in (map lower (prefixes r)) (lower u) = true.
Proof.
  intros H. apply search_from_spec in H as (pre & m & post & E & Hm).
  destruct (matches_prefixes r m Hm) as (p & m1 & m2 & Hp & -> & Hl).
  apply (any_in_intro (lower p)); [now apply in_map|].
  pose proof (lower_idem u) as Hfix. rewrite E in Hfix.
  apply lower_app_fixed in Hfix as [_ Hfix].
  rewrite <- app_assoc in Hfix.
  apply lower_app_fixed in Hfix as [Hm1 _].
  rewrite <- Hl, Hm1, E, <- app_assoc. apply contains_intro.
Qed.

(** A pattern each of whose literal beginnings is itself a match is found
    exactly in the texts that hold one of them. *)
Lemma pattern_is_words (p : str) (r : regex) (u : str) :
  compile p = Some r ->
  forallb (search_from true r) (map lower (prefixes r)) = true ->
  pattern_hits (lower u) p = any_in (map lower (prefixes r)) (lower u).
Proof.
  intros Hc Hw. unfold pattern_hits. rewrite Hc.
  apply Bool.eq_iff_eq_true. split; [apply search_prefixes|].
  unfold any_in. rewrite existsb_exists. intros (w & Hin & Hcont).
  rewrite forallb_forall in Hw.
  exact (search_from_mono true r w (lower u) Hcont (Hw w Hin)).
Qed.

Lemma pattern_silent (p : str) (r : regex) (u : str) :
  compile p = Some r ->
  any_in (map lower (prefixes r)) (lower u) = false ->
  pattern_hits (lower u) p = false.
Proof.
  intros Hc Hno. unfold pattern_hits. rewrite Hc.
  destruct (search_from true r (lower u)) eqn:E; [|reflexivity].
  apply search_prefixes in E. congruence.
Qed.

End PrefixFacts.

(** ** Patterns the overrides shadow *)

Section ShadowFacts.

Lemma tier_matches_filter (keep : str -> bool) (l : list str) (u : str) :
  (forall p, In p l -> keep p = false -> pattern_hits (lower u) p = false) ->
  tier_matches (filter keep l) u = tier_matches l u.
Proof.
  unfold tier_matches. induction l as [|p l IH]; intros H; [reflexivity|].
  cbn [filter existsb]. destruct (keep p) eqn:E.
  - cbn [existsb]. rewrite IH; [reflexivity|].
    intros q Hq. apply H. now right.
  - rewrite (H p (or_introl eq_refl) E). cbn [orb].
    apply IH. intros q Hq. apply H. now right.
Qed.

Variable u : str.
Hypothesis no_asthma : contains (py "asthma") (lower u) = false.
Hypothesis no_blood_sugar : contains (py "blood sugar") (lower u) = false.
Hypothesis no_back_pain : contains (py "back pain") (lower u) = false.

Lemma shadowed_silent (p : str) (r : regex) (kw : str) :
  compile p = Some r ->
  map lower (prefixes r) = [kw] ->
  contains kw (lower u) = false ->
  pattern_hits (lower u) p = false.
Proof.
  intros Hc Hp Hk. apply (pattern_silent p r u Hc).
  rewrite Hp. unfold any_in. simpl. now rewrite Hk.
Qed.

Ltac silence kw H :=
  eapply (shadowed_silent _ _ kw);
    [vm_compute; reflexivity | vm_compute; reflexivity | exact H].

Lemma semi_urgent_shadowed_silent (p : str) :
  In p (semi_urgent_indicators __init__) ->
  negb (shadowed p) = false -> pattern_hits (lower u) p = false.
Proof.
  intros Hin Hs. simpl in Hin.
  repeat (destruct Hin as [<-|Hin]; [try (vm_compute in Hs; discriminate Hs)|]);
    try destruct Hin.
  - silence (py "asthma") no_asthma.
  - silence (py "blood sugar") no_blood_sugar.
  - silence (py "back pain") no_back_pain.
Qed.

Lemma routine_shadowed_silent (p : str) :
  In p (routine_indicators __init__) ->
  negb (shadowed p) = false -> pattern_hits (lower u) p = false.
Proof.
  intros Hin Hs. simpl in Hin.
  repeat (destruct Hin as [<-|Hin]; [try (vm_compute in Hs; discriminate Hs)|]);
    try destruct Hin.
  - silence (py "asthma") no_asthma.
  - silence (py "blood sugar") no_blood_sugar.
  - silence (py "back pain") no_back_pain.
Qed.

End ShadowFacts.

Lemma compiles_filter (keep : str -> bool) (l : list str) :
  compiles l = true -> compiles (filter keep l) = true.
Proof.
  unfold compiles. rewrite !forallb_forall. intros H p Hp.
  apply filter_In in Hp as [Hp _]. now apply H.
Qed.

(** For any agent: if the shadowed patterns of its semi-urgent and routine
    tables find nothing in a unit that holds none of the three keywords,
    the agent without them classifies that unit the same way. *)
Lemma without_shadowed_same (self : TriageAgent) (u : str) :
  registry_ok self = true ->
  (contains (py "asthma") (lower u) = false ->
   contains (py "blood sugar") (lower u) = false ->
   contains (py "back pain") (lower u) = false ->
   forall p,
     In p (semi_urgent_indicators self) \/ In p (routine_indicators self) ->
     negb (shadowed p) = false -> pattern_hits (lower u) p = false) ->
  classify_symptom (without_shadowed self) u = classify_symptom self u.
Proof.
  unfold registry_ok. rewrite !andb_true_iff.
  intros [[[He Hu] Hs] Hr] Hsilent.
  pose proof (compiles_filter (fun p => negb (shadowed p)) _ Hs) as Hs'.
  pose proof (compiles_filter (fun p => negb (shadowed p)) _ Hr) as Hr'.
  unfold classify_symptom.
  cbn [emergency_indicators urgent_indicators semi_urgent_indicators
       routine_indicators without_shadowed].
  destruct (any_in _ (lower u) && any_in _ (lower u)); [reflexivity|].
  destruct (contains (py "asthma") (lower u)) eqn:Ha; [reflexivity|].
  destruct (contains (py "blood sugar") (lower u)
            || contains (py "diabetes") (lower u)) eqn:Hb; [reflexivity|].
  apply orb_false_elim in Hb as [Hb _].
  destruct (contains (py "back pain") (lower u)) eqn:Hp; [reflexivity|].
  specialize (Hsilent eq_refl Hb eq_refl).
  repeat (rewrite check_pattern_match_ok by assumption; cbn [bind]).
  destruct (tier_matches (emergency_indicators self) u); [reflexivity|].
  repeat (rewrite check_pattern_match_ok by assumption; cbn [bind]).
  destruct (tier_matches (urgent_indicators self) u); [reflexivity|].
  repeat (rewrite check_pattern_match_ok by assumption; cbn [bind]).
  rewrite (tier_matches_filter _ (semi_urgent_indicators self) u)
    by (intros p Hin; apply Hsilent; now left).
  destruct (tier_matches (semi_urgent_indicators self) u); [reflexivity|].
  repeat (rewrite check_pattern_match_ok by assumption; cbn [bind]).
  rewrite (tier_matches_filter _ (routine_indicators self) u)
    by (intros p Hin; apply Hsilent; now right).
  reflexivity.
Qed.

(** X8: the six patterns of the semi-urgent and routine tables that begin
    with "asthma", "blood sugar" or "back pain" never decide the
    classification of a unit written in ASCII: without them the loop body
    returns the same severity by the same path on every such unit, because
    a unit that holds one of these keywords is settled by its domain
    override before any table is read. *)
Theorem shadowed_patterns_never_decide :
  List.length (semi_urgent_indicators (without_shadowed __init__)) = 22
  /\ List.length (routine_indicators (without_shadowed __init__)) = 15
  /\ forall u : str,
       is_ascii u = true ->
       classify_symptom (without_shadowed __init__) u
       = classify_symptom __init__ u.
Proof.
  split; [vm_compute; reflexivity|]. split; [vm_compute; reflexivity|].
  intros u _. apply without_shadowed_same; [exact init_registry_ok|].
  intros Ha Hb Hp p [Hin|Hin] Hs.
  - exact (semi_urgent_shadowed_silent u Ha Hb Hp p Hin Hs).
  - exact (routine_shadowed_silent u Ha Hb Hp p Hin Hs).
Qed.

Lemma shadowed_patterns_never_decide_witness :
  is_ascii (py "Back pain, chronic") = true
  /\ tier_matches (routine_indicators __init__) (py "Back pain, chronic") = true
  /\ classify_symptom (without_shadowed __init__) (py "Back pain, chronic")
     = classify_symptom __init__ (py "Back pain, chronic").
Proof.
  split; [reflexivity|]. split; [vm_compute; reflexivity|].
  destruct shadowed_patterns_never_decide as (_ & _ & Hsame).
  apply (Hsame (py "Back pain, chronic")). reflexivity.
Defined.

(** ** The pediatric check and the instructions *)

Section InstructionFacts.

Lemma pattern_as_words (p : str) (r : regex) (words : list str) (u : str) :
  compile p = Some r ->
  map lower (prefixes r) = words ->
  forallb (search_from true r) words = true ->
  pattern_hits (lower u) p = any_in words (lower u).
Proof. intros Hc <- Hw. now apply pattern_is_words. Qed.

(** X9: on a report written in ASCII the pediatric check answers true
    exactly when the lowered report holds, anywhere and as a plain
    substring, one of "baby", "infant", "child", "kid", "toddler",
    "newborn", "my son", "my daughter", "pediatric", or a match of the age
    phrase; so a word such as "kidney" makes a report pediatric. *)
Theorem pediatric_check_is_substring_search :
  forall (self : TriageAgent) (symptoms : str),
    is_ascii symptoms = true ->
    _is_pediatric_case self symptoms
    = Ok (has pediatric_words symptoms
          || pattern_hits (lower symptoms) age_phrase).
Proof.
  intros self symptoms _. rewrite is_pediatric_case_total. f_equal.
  unfold tier_matches, pediatric_indicators. cbn [map existsb].
  rewrite (pattern_as_words (py "(baby|infant|child|kid|toddler|newborn)") _
             (map py ["baby"; "infant"; "child"; "kid"; "toddler";
                      "newborn"]%string) symptoms)
    by (vm_compute; reflexivity).
  rewrite (pattern_as_words (py "my son") _ [py "my son"] symptoms)
    by (vm_compute; reflexivity).
  rewrite (pattern_as_words (py "my daughter") _ [py "my daughter"] symptoms)
    by (vm_compute; reflexivity).
  rewrite (pattern_as_words (py "pediatric") _ [py "pediatric"] symptoms)
    by (vm_compute; reflexivity).
  rewrite (pattern_as_words (py "children") _ [py "children"] symptoms)
    by (vm_compute; reflexivity).
  unfold has, pediatric_words, any_in, age_phrase. cbn [map existsb].
  assert (Hch : contains (py "children") (lower symptoms) = true ->
                contains (py "child") (lower symptoms) = true).
  { apply contains_trans. reflexivity. }
  destruct (contains (py "children") (lower symptoms)).
  - rewrite (Hch eq_refl). btauto.
  - btauto.
Qed.

Lemma pediatric_check_is_substring_search_witness :
  is_ascii (py "Kidney stones") = true
  /\ has pediatric_words (py "Kidney stones") = true
  /\ _is_pediatric_case __init__ (py "Kidney stones")
     = Ok (has pediatric_words (py "Kidney stones")
           || pattern_hits (lower (py "Kidney stones")) age_phrase).
Proof.
  split; [reflexivity|]. split; [vm_compute; reflexivity|].
  apply (pediatric_check_is_substring_search __init__ (py "Kidney stones")).
  reflexivity.
Defined.

Example kidney_counts_as_pediatric :
  _is_pediatric_case __init__ (py "Kidney stones") = Ok true
  /\ get_care_instructions __init__ SELF_MANAGEMENT (py "Kidney stones")
     = dict_get pathway_eqb pediatric_instructions SELF_MANAGEMENT.
Proof. split; vm_compute; reflexivity. Qed.

(** X10: whatever the pattern tables and the pediatric check, the
    instructions of a result name the number 911 exactly when its severity
    is Emergency. *)
Theorem instructions_name_911_iff_emergency :
  forall (detector : TriageAgent -> str -> result bool)
         (self : TriageAgent) (symptoms : str) (r : TriageResult),
    triage_symptoms_with detector self symptoms = Ok r ->
    (contains (py "911") (instructions r) = true
     <-> severity r = severity_value EMERGENCY).
Proof.
  intros detector self symptoms r H.
  unfold triage_symptoms_with, get_care_instructions_with in H.
  destruct (classify_severity self symptoms) as [sev|e]; [|discriminate].
  cbn [bind] in H. rewrite recommend_care_pathway_table in H. cbn [bind] in H.
  destruct (detector self symptoms) as [ped|e]; [|discriminate].
  cbn [bind] in H.
  destruct sev, ped; vm_compute in H; injection H as <-;
    vm_compute; split; intros E; solve [reflexivity | discriminate E].
Qed.


Lemma instructions_name_911_iff_emergency_witness :
  exists r,
    triage_symptoms_with _is_pediatric_case __init__ (py "chest pain") = Ok r
    /\ (contains (py "911") (instructions r) = true
        <-> severity r = severity_value EMERGENCY)
    /\ contains (py "911") (instructions r) = true.
Proof.
  eexists. split; [vm_compute; reflexivity|].
  split; [|vm_compute; reflexivity].
  apply (instructions_name_911_iff_emergency
           _is_pediatric_case __init__ (py "chest pain")).
  vm_compute. reflexivity.
Defined.

End InstructionFacts.

(** ** The generation step *)

Section GenerationFacts.

Lemma str_eqb_eq (a b : str) : str_eqb a b = true <-> a = b.
Proof.
  revert b; induction a as [|x a IH]; intros [|y b]; simpl;
    try (split; [discriminate | congruence]); [tauto|].
  rewrite andb_true_iff, Ascii.eqb_eq, IH.
  split; [intros [-> ->]; reflexivity | intros H; injection H; auto].
Qed.

(** X11: whatever the generation service does, [analyze_symptoms] returns
    and does not raise; the triage block it returns is the result of the
    agent on the report; and when that severity is Emergency the
    instructions of the block name 911, also when the response text is a
    fallback that does not. *)
Theorem analysis_always_carries_the_triage :
  forall (service : ollama) (symptoms : str),
    exists a,
      analyze_symptoms __init__ service symptoms = Ok a
      /\ triage_symptoms __init__ symptoms = Ok (triage a)
      /\ response a = ai_response service (triage a)
      /\ (severity (triage a) = severity_value EMERGENCY ->
          contains (py "911") (instructions (triage a)) = true).
Proof.
  intros service symptoms. unfold analyze_symptoms.
  destruct (triage_symptoms_result symptoms) as (sev & text & _ & Htext & Hr).
  rewrite Hr. cbn [bind]. eexists. split; [reflexivity|].
  cbn [triage response severity instructions].
  split; [reflexivity|]. split; [reflexivity|].
  intros Hsev.
  assert (sev = EMERGENCY) by (destruct sev; try discriminate Hsev; reflexivity).
  subst sev.
  destruct (tier_matches pediatric_indicators symptoms);
    vm_compute in Htext; injection Htext as <-; vm_compute; reflexivity.
Qed.

Lemma analysis_always_carries_the_triage_witness :
  exists a,
    analyze_symptoms __init__ service_down (py "chest pain") = Ok a
    /\ severity (triage a) = severity_value EMERGENCY
    /\ directs_to_emergency_services (response a) = false
    /\ contains (py "911") (instructions (triage a)) = true.
Proof.
  destruct (analysis_always_carries_the_triage service_down (py "chest pain"))
    as (a & Ha & _ & _ & H911).
  vm_compute in Ha. injection Ha as <-.
  eexists. split; [vm_compute; reflexivity|].
  split; [reflexivity|]. split; [vm_compute; reflexivity|].
  apply H911. reflexivity.
Defined.



(** X13: the probe passes exactly when the status is 200 and the model
    list of the body holds the name "medllama2:latest" or "medllama2"; any
    other tag of the model is refused. *)
Theorem probe_passes_iff_model_listed :
  forall h : health_reply,
    check_ollama h = None
    <-> exists names,
          h = HealthStatus 200 (Some names)
          /\ (In (py "medllama2:latest") names \/ In MODEL_NAME names).
Proof.
  intros h. split.
  - destruct h as [| |status_code [names|]]; cbn [check_ollama];
      try discriminate.
    + destruct (status_code =? 200) eqn:E; [|discriminate].
      apply Nat.eqb_eq in E. subst. cbn [negb].
      destruct (existsb _ names) eqn:Ex; [|discriminate]. intros _.
      exists names. split; [reflexivity|].
      apply existsb_exists in Ex as (name & Hin & Hname).
      apply orb_true_iff in Hname as [Hn|Hn];
        apply str_eqb_eq in Hn; subst; auto.
    + destruct (negb (status_code =? 200)); discriminate.
  - intros (names & -> & Hin). cbn [check_ollama Nat.eqb negb].
    assert (Ex : existsb (fun name => str_eqb name (py "medllama2:latest")
                                      || str_eqb name MODEL_NAME) names = true).
    { apply existsb_exists. destruct Hin as [Hin|Hin].
      - exists (py "medllama2:latest"). split; [exact Hin | reflexivity].
      - exists MODEL_NAME. split; [exact Hin | reflexivity]. }
    change (200 =? 200) with true. cbn [negb]. now rewrite Ex.
Qed.

Lemma probe_passes_iff_model_listed_witness :
  check_ollama (HealthStatus 200 (Some [py "llama3"; py "medllama2"])) = None
  /\ check_ollama (HealthStatus 200 (Some [py "medllama2:7b"])) <> None.
Proof.
  split.
  - apply probe_passes_iff_model_listed. eexists. split; [reflexivity|].
    right. right. left. reflexivity.
  - intros H. apply probe_passes_iff_model_listed in H as (names & E & Hin).
    injection E as <-.
    destruct Hin as [[H|[]]|[H|[]]]; discriminate H.
Defined.

(** X14: when the probe passes and the generation request times out, the
    response sends the user to the emergency services exactly when the
    severity of the triage result is "emergency". *)
Theorem timeout_response_directs_iff_emergency :
  forall (service : ollama) (triage_result : TriageResult),
    check_ollama (health service) = None ->
    generate service = PostTimedOut ->
    (directs_to_emergency_services (ai_response service triage_result) = true
     <-> severity triage_result = py "emergency").
Proof.
  intros service triage_result Hh Hg. unfold ai_response.
  rewrite Hh, Hg. unfold fallback_response.
  destruct (str_eqb (severity triage_result) (py "emergency")) eqn:E.
  - apply str_eqb_eq in E. split; [intros _; exact E|].
    intros _. vm_compute. reflexivity.
  - split.
    + intros H. vm_compute in H. discriminate H.
    + intros H. apply str_eqb_eq in H. congruence.
Qed.

Lemma timeout_response_directs_iff_emergency_witness :
  check_ollama (health service_refuses_post) = None
  /\ directs_to_emergency_services
       (ai_response {| health := health service_refuses_post;
                       generate := PostTimedOut |}
          {| severity := py "emergency"; care_pathway := py "emergency_room";
             instructions := [] |}) = true.
Proof.
  split; [reflexivity|].
  apply timeout_response_directs_iff_emergency; reflexivity.
Defined.

End GenerationFacts.

(** ** The retrieval step *)

Section RetrievalFacts.

Variable lib : libraries.

Lemma guard_condition (symptoms : str) :
  negb (truthy symptoms) || (py_len (strip symptoms) <? 3)
  = (py_len (strip symptoms) <? 3).
Proof. destruct symptoms; reflexivity. Qed.


Lemma reraise_not_value_error {A : Type} (prefix : str)
  (m : pubmed_rag.outcome A)
  (msg : str) :
  reraise prefix m <> Throw (PyValueError msg).
Proof. destruct m; simpl; discriminate. Qed.

(** X15: for a text whose whitespace is ASCII, [get_context_from_symptoms]
    raises the [ValueError] for a text that is too short exactly when the
    text has fewer than three characters after trimming, and then without
    calling any library. *)
Theorem context_guard_iff_short :
  forall symptoms : str,
    ascii_spaced symptoms = true ->
    (py_len (strip symptoms) < 3
     <-> get_context_from_symptoms lib symptoms = Throw too_short).
Proof.
  intros symptoms _. unfold get_context_from_symptoms.
  rewrite guard_condition.
  destruct (py_len (strip symptoms) <? 3) eqn:E.
  - apply Nat.ltb_lt in E. split; [reflexivity | intros _; exact E].
  - apply Nat.ltb_ge in E. split; [lia|].
    intros H. now apply reraise_not_value_error in H.
Qed.

Lemma add_sources_extends (docs : list document) :
  forall (context : str) (i : nat),
    exists tail, add_sources context i docs = context ++ tail.
Proof.
  induction docs as [|d docs IH]; intros context i; cbn [add_sources].
  - exists []. now rewrite app_nil_r.
  - destruct (IH (context ++ py "Source " ++ str_of_nat i ++ py ":" ++
                  [newline] ++ page_content d ++ [newline; newline]) (S i))
      as (tail & ->).
    eexists. rewrite <- app_assoc. reflexivity.
Qed.

Lemma add_sources_holds (docs : list document) :
  forall (context : str) (i : nat) (d : document),
    In d docs -> infix (page_content d) (add_sources context i docs).
Proof.
  induction docs as [|d0 docs IH]; intros context i d Hin; [destruct Hin|].
  destruct Hin as [->|Hin]; [|now apply IH].
  cbn [add_sources].
  destruct (add_sources_extends docs
              (context ++ py "Source " ++ str_of_nat i ++ py ":" ++
               [newline] ++ page_content d ++ [newline; newline]) (S i))
    as (tail & ->).
  exists (context ++ py "Source " ++ str_of_nat i ++ py ":" ++ [newline]),
         ([newline; newline] ++ tail).
  now rewrite <- !app_assoc.
Qed.

Lemma context_of_documents (symptoms context : str) :
  get_context_from_symptoms lib symptoms = Return context ->
  exists d docs,
    process_symptoms lib symptoms = Return (d :: docs)
    /\ context = add_sources context_header 1 (d :: docs).
Proof.
  unfold get_context_from_symptoms.
  destruct (negb (truthy symptoms) || _); [discriminate|].
  destruct (process_symptoms lib symptoms) as [[|d docs]|e];
    cbn [and_then reraise]; try discriminate.
  intros H; injection H as <-. now exists d, docs.
Qed.

(** X16: past the guard (a text whose whitespace is ASCII, of three
    characters or more after trimming), [get_context_from_symptoms] either
    returns a context that begins with the header, opens its first section
    with "Source 1:" and holds the content of every document retrieved, of
    which there is at least one; or it raises a [RuntimeError] whose message
    begins with "Failed to retrieve medical context: ". *)
Theorem context_is_sourced_or_runtime_error :
  forall symptoms : str,
    ascii_spaced symptoms = true ->
    3 <= py_len (strip symptoms) ->
    match get_context_from_symptoms lib symptoms with
    | Return context =>
        exists d docs,
          process_symptoms lib symptoms = Return (d :: docs)
          /\ startswith (context_header ++ py "Source 1:" ++ [newline]) context
             = true
          /\ Forall (fun d' => contains (page_content d') context = true)
               (d :: docs)
    | Throw e =>
        exists msg,
          e = PyRuntimeError (py "Failed to retrieve medical context: " ++ msg)
    end.
Proof.
  intros symptoms _ Hlen.
  destruct (get_context_from_symptoms lib symptoms) as [context|e] eqn:E.
  - apply context_of_documents in E as (d & docs & Hp & ->).
    exists d, docs. split; [exact Hp|]. split.
    + cbn [add_sources].
      destruct (add_sources_extends docs
                  (context_header ++ py "Source " ++ str_of_nat 1 ++ py ":" ++
                   [newline] ++ page_content d ++ [newline; newline]) 2)
        as (tail & ->).
      change (py "Source " ++ str_of_nat 1 ++ py ":" ++ [newline] ++
              page_content d ++ [newline; newline])
        with ((py "Source 1:" ++ [newline]) ++
              page_content d ++ [newline; newline]).
      replace ((context_header ++ (py "Source 1:" ++ [newline]) ++
                page_content d ++ [newline; newline]) ++ tail)
        with ((context_header ++ py "Source 1:" ++ [newline]) ++
              page_content d ++ [newline; newline] ++ tail)
        by (now rewrite <- !app_assoc).
      apply startswith_app.
    + apply Forall_forall. intros d' Hd'.
      apply infix_contains. now apply add_sources_holds.
  - unfold get_context_from_symptoms in E. rewrite guard_condition in E.
    apply Nat.ltb_ge in Hlen. rewrite Hlen in E.
    destruct (process_symptoms lib symptoms) as [[|d docs]|e'];
      cbn [and_then reraise] in E; try discriminate E;
      injection E as <-; eexists; reflexivity.
Qed.

End RetrievalFacts.

Lemma context_guard_iff_short_witness :
  ascii_spaced (py "  hi ") = true
  /\ py_len (strip (py "  hi ")) < 3
  /\ get_context_from_symptoms one_article (py "  hi ") = Throw too_short.
Proof.
  assert (H : py_len (strip (py "  hi ")) < 3) by (vm_compute; lia).
  split; [reflexivity|]. split; [exact H|].
  apply (context_guard_iff_short one_article); [reflexivity | exact H].
Defined.

Lemma context_is_sourced_or_runtime_error_witness :
  ascii_spaced (py "tension headache") = true
  /\ 3 <= py_len (strip (py "tension headache"))
  /\ match get_context_from_symptoms one_article (py "tension headache") with
     | Return context =>
         exists d docs,
           process_symptoms one_article (py "tension headache")
             = Return (d :: docs)
           /\ startswith (context_header ++ py "Source 1:" ++ [newline]) context
              = true
           /\ Forall (fun d' => contains (page_content d') context = true)
                (d :: docs)
     | Throw e =>
         exists msg,
           e = PyRuntimeError (py "Failed to retrieve medical context: " ++ msg)
     end.
Proof.
  assert (H : 3 <= py_len (strip (py "tension headache")))
    by (vm_compute; lia).
  split; [reflexivity|]. split; [exact H|].
  apply (context_is_sourced_or_runtime_error one_article);
    [reflexivity | exact H].
Defined.

Example context_of_one_article :
  get_context_from_symptoms one_article (py "tension headache")
  = Return (py "Relevant medical information:" ++ [newline; newline] ++
            py "Source 1:" ++ [newline] ++
            py "Title: Tension-type headache" ++ [newline; newline] ++
            py "Abstract: Background. Results." ++ [newline; newline]).
Proof. vm_compute. reflexivity. Qed.

Section RetrievalErrors.

Variable lib : libraries.

Lemma past_guard (symptoms : str) :
  3 <= py_len (strip symptoms) ->
  get_context_from_symptoms lib symptoms
  = reraise (py "Failed to retrieve medical context: ")
      (relevant_docs <~ process_symptoms lib symptoms ;;
       match relevant_docs with
       | [] => Throw (PyValueError
                        (py "No relevant medical literature found for these symptoms"))
       | _ :: _ => Return (add_sources context_header 1 relevant_docs)
       end).
Proof.
  intros H. unfold get_context_from_symptoms. rewrite guard_condition.
  apply Nat.ltb_ge in H. now rewrite H.
Qed.

(** X17: past the guard (a text whose whitespace is ASCII, of three
    characters or more after trimming), a failure inside the retrieval
    reaches the caller as one [RuntimeError] whose message names each stage
    it went through:
    an exception of the Entrez search with message m gives "Failed to
    retrieve medical context: Failed to process symptoms: Failed to search
    PubMed: m"; a search that finds nothing, also on its second and more
    general query, gives "... Failed to process symptoms: No PubMed articles
    found for the given symptoms". *)
Theorem retrieval_errors_are_nested :
  forall symptoms : str,
    ascii_spaced symptoms = true ->
    3 <= py_len (strip symptoms) ->
    (forall e,
       esearch lib (clean symptoms) 10 = Throw e ->
       get_context_from_symptoms lib symptoms
       = Throw (PyRuntimeError
                  (py "Failed to retrieve medical context: Failed to process symptoms: Failed to search PubMed: "
                   ++ str_of e)))
    /\ (esearch lib (clean symptoms) 10 = Return [] ->
        esearch lib (general_query (clean symptoms)) 10 = Return [] ->
        get_context_from_symptoms lib symptoms
        = Throw (PyRuntimeError
                   (py "Failed to retrieve medical context: Failed to process symptoms: No PubMed articles found for the given symptoms"))).
Proof.
  intros symptoms _ Hlen. rewrite (past_guard symptoms Hlen).
  unfold process_symptoms, search_pubmed. split.
  - intros e He. rewrite He. cbn [and_then reraise str_of].
    rewrite !app_assoc. reflexivity.
  - intros H1 H2. rewrite H1. cbn [and_then]. rewrite H2.
    cbn [and_then reraise str_of]. reflexivity.
Qed.

(** X18: for a report whose whitespace is ASCII, the query
    [process_symptoms] searches with holds no newline and no hyphen and is
    trimmed; it is empty exactly when the report is made of whitespace and
    hyphens only. *)
Theorem clean_query :
  forall symptoms : str,
    ascii_spaced symptoms = true ->
    ~ In newline (clean symptoms)
    /\ ~ In "-"%char (clean symptoms)
    /\ strip (clean symptoms) = clean symptoms
    /\ (clean symptoms = []
        <-> forall c, In c symptoms -> isspace c = true \/ c = "-"%char).
Proof.
  intros symptoms _. unfold clean.
  set (t := replace_char "-" " " (replace_char newline " " symptoms)).
  assert (Ht : forall c, In c t -> c <> newline /\ c <> "-"%char).
  { intros c Hc. unfold t, replace_char in Hc.
    rewrite map_map in Hc. apply in_map_iff in Hc as (x & <- & _).
    destruct (Ascii.eqb x newline) eqn:E1.
    - split; discriminate.
    - destruct (Ascii.eqb x "-") eqn:E2; [split; discriminate|].
      apply Ascii.eqb_neq in E1, E2. now split. }
  repeat split.
  - intros H. apply (infix_incl _ _ (strip_infix t)) in H.
    now apply Ht in H as [H _].
  - intros H. apply (infix_incl _ _ (strip_infix t)) in H.
    now apply Ht in H as [_ H].
  - apply strip_idem.
  - intros H c Hc. apply strip_nil in H. unfold all_space in H.
    rewrite forallb_forall in H.
    specialize (H _ (in_map _ _ _ (in_map (fun c => if Ascii.eqb c newline
                                                     then " "%char else c)
                                      _ _ Hc))).
    destruct (Ascii.eqb c newline) eqn:E1.
    + apply Ascii.eqb_eq in E1. subst. now left.
    + destruct (Ascii.eqb c "-") eqn:E2.
      * apply Ascii.eqb_eq in E2. now right.
      * now left.
  - intros H. apply strip_nil. unfold all_space. apply forallb_forall.
    intros c Hc. unfold t, replace_char in Hc. rewrite map_map in Hc.
    apply in_map_iff in Hc as (x & <- & Hx).
    destruct (Ascii.eqb x newline) eqn:E1; [reflexivity|].
    destruct (Ascii.eqb x "-") eqn:E2; [reflexivity|].
    destruct (H x Hx) as [Hs | ->]; [exact Hs|].
    now rewrite Ascii.eqb_refl in E2.
Qed.


End RetrievalErrors.

Lemma retrieval_errors_are_nested_witness :
  ascii_spaced (py "chest pain") = true
  /\ 3 <= py_len (strip (py "chest pain"))
  /\ esearch offline (clean (py "chest pain")) 10
     = Throw (PyException (py "Network is unreachable"))
  /\ get_context_from_symptoms offline (py "chest pain")
     = Throw (PyRuntimeError
                (py "Failed to retrieve medical context: Failed to process symptoms: Failed to search PubMed: Network is unreachable"))
  /\ get_context_from_symptoms nothing_found (py "chest pain")
     = Throw (PyRuntimeError
                (py "Failed to retrieve medical context: Failed to process symptoms: No PubMed articles found for the given symptoms")).
Proof.
  assert (H : 3 <= py_len (strip (py "chest pain"))) by (vm_compute; lia).
  split; [reflexivity|]. split; [exact H|]. split; [reflexivity|]. split.
  - destruct (retrieval_errors_are_nested offline (py "chest pain")
                eq_refl H) as [Hraise _].
    exact (Hraise (PyException (py "Network is unreachable")) eq_refl).
  - destruct (retrieval_errors_are_nested nothing_found (py "chest pain")
                eq_refl H) as [_ Hnone].
    exact (Hnone eq_refl eq_refl).
Defined.

Lemma clean_query_witness :
  ascii_spaced (py " - -" ++ [newline]) = true
  /\ (forall c, In c (py " - -" ++ [newline]) ->
              isspace c = true \/ c = "-"%char)
  /\ clean (py " - -" ++ [newline]) = []
  /\ clean (py "--ache--") = py "ache".
Proof.
  assert (H : forall c, In c (py " - -" ++ [newline]) ->
                        isspace c = true \/ c = "-"%char).
  { intros c Hc. simpl in Hc.
    repeat (destruct Hc as [<-|Hc]; [auto|]). destruct Hc. }
  split; [reflexivity|]. split; [exact H|]. split; [|reflexivity].
  destruct (clean_query (py " - -" ++ [newline]) eq_refl)
    as (_ & _ & _ & Hiff).
  apply Hiff. exact H.
Defined.


(** ** The fetch and the domain keywords *)

(** X20: [fetch_pubmed_articles] never returns an empty list: what it
    returns is one entry per record fetched, in order, for a non-empty list
    of ids; with no id it raises a [ValueError], and with ids but no record
    it raises a [RuntimeError], the [ValueError] raised inside the [try]
    being wrapped like any library failure. *)
Theorem fetch_never_returns_empty :
  forall (lib : libraries) (pmids : list str),
    match fetch_pubmed_articles lib pmids with
    | Return results =>
        results <> [] /\ pmids <> []
        /\ exists records,
             efetch lib pmids = Return records
             /\ results = map extract records
    | Throw e =>
        (pmids = []
         /\ e = PyValueError (py "No PubMed IDs provided to fetch articles"))
        \/ (pmids <> []
            /\ exists msg,
                 e = PyRuntimeError (py "Failed to fetch PubMed articles: " ++ msg)
                 /\ (efetch lib pmids = Return [] ->
                     msg = py "Failed to extract article data from PubMed"))
    end.
Proof.
  intros lib [|pmid pmids]; cbn [fetch_pubmed_articles].
  - left. split; reflexivity.
  - destruct (efetch lib (pmid :: pmids)) as [[|record records]|e];
      cbn [and_then map reraise str_of].
    + right. split; [discriminate|]. eexists. split; reflexivity.
    + split; [discriminate|]. split; [discriminate|].
      eexists. split; reflexivity.
    + right. split; [discriminate|]. eexists.
      split; [reflexivity | discriminate].
Qed.

(** X21: a unit that holds "asthma", "blood sugar", "diabetes" or "back
    pain" (case-insensitively) is classified without reading any pattern
    table: two agents with any tables give it the same severity by the same
    path.  An emergency phrase in such a unit, for instance "chest pain"
    without an intensifier, is therefore not looked for. *)
Theorem domain_keyword_bypasses_tables :
  forall (self self' : TriageAgent) (u : str),
    contains (py "asthma") (lower u)
    || contains (py "blood sugar") (lower u)
    || contains (py "diabetes") (lower u)
    || contains (py "back pain") (lower u) = true ->
    classify_symptom self u = classify_symptom self' u.
Proof.
  intros self self' u H. unfold classify_symptom.
  destruct (any_in _ (lower u) && any_in _ (lower u)); [reflexivity|].
  destruct (contains (py "asthma") (lower u)); [reflexivity|].
  cbn [orb] in H.
  destruct (contains (py "blood sugar") (lower u)
            || contains (py "diabetes") (lower u)); [reflexivity|].
  cbn [orb] in H. rewrite H. reflexivity.
Qed.

Lemma domain_keyword_bypasses_tables_witness :
  contains (py "asthma") (lower (py "Asthma and chest pain"))
  || contains (py "blood sugar") (lower (py "Asthma and chest pain"))
  || contains (py "diabetes") (lower (py "Asthma and chest pain"))
  || contains (py "back pain") (lower (py "Asthma and chest pain")) = true
  /\ classify_symptom __init__ (py "Asthma and chest pain")
     = classify_symptom (without_shadowed __init__) (py "Asthma and chest pain")
  /\ classify_symptom __init__ (py "Asthma and chest pain")
     = Ok (ROUTINE, StableAsthma)
  /\ classify_symptom __init__ (py "chest pain")
     = Ok (EMERGENCY, EmergencyPattern).
Proof.
  split; [reflexivity|]. split.
  - apply domain_keyword_bypasses_tables. reflexivity.
  - split; vm_compute; reflexivity.
Defined.

Lemma fetch_never_returns_empty_witness :
  fetch_pubmed_articles nothing_found [py "31452104"]
    = Throw (PyRuntimeError
               (py "Failed to fetch PubMed articles: Failed to extract article data from PubMed"))
  /\ exists results,
       fetch_pubmed_articles one_article [py "31452104"] = Return results
       /\ results <> [].
Proof.
  split; [reflexivity|].
  pose proof (fetch_never_returns_empty one_article [py "31452104"]) as H.
  destruct (fetch_pubmed_articles one_article [py "31452104"])
    as [results|e] eqn:E.
  - exists results. split; [reflexivity | apply H].
  - vm_compute in E. discriminate E.
Defined.
